(** * BRD Agent dashboard: file intake, extraction, request composition, export

    A shallow embedding of [frontend/src/components/Dashboard.jsx].

    Conventions of the embedding.
    - A JavaScript string is a [string]: a sequence of code units.  The model
      covers code units below 256 (the Latin-1 range of UTF-16).
    - [file.size] and the limits compared with it are non-negative integers
      ([N]); array lengths are [nat]; [canAdd] and [rejectedCount], which
      are differences, are [Z].
    - Numbers that the code really computes in floating point (the id
      [Date.now() + Math.random()], the page arithmetic of the PDF export)
      are binary64 [float]s, with the primitive operations of the kernel.
    - What the host decides (the clock, the random generator, the outcome of
      a file read, of a network call, of the rasteriser) is an explicit
      argument of the function that consults it.
    - [console.warn] and [console.error] output is not part of the model. *)

From Stdlib Require Import String Ascii List NArith ZArith Bool Lia Floats
  DecimalString.
Import ListNotations.
Open Scope string_scope.
Open Scope list_scope.
Open Scope nat_scope.

(** ** JavaScript string primitives *)

(** [s.includes(sub)] *)
Fixpoint includes (s sub : string) : bool :=
  prefix sub s ||
  match s with
  | EmptyString => false
  | String _ s' => includes s' sub
  end.

(** One code unit of [s.toLowerCase()]: A-Z and the Latin-1 capitals
    (U+00C0-U+00DE without the multiplication sign U+00D7) move by 32. *)
Definition lowerUnit (c : ascii) : ascii :=
  let n := nat_of_ascii c in
  if ((65 <=? n) && (n <=? 90)) ||
     ((192 <=? n) && (n <=? 222) && negb (n =? 215))
  then ascii_of_nat (n + 32) else c.

Fixpoint toLowerCase (s : string) : string :=
  match s with
  | EmptyString => EmptyString
  | String c s' => String (lowerUnit c) (toLowerCase s')
  end.

(** [a || b] on strings: the empty string is the only falsy one. *)
Definition js_or (a b : string) : string :=
  match a with
  | EmptyString => b
  | _ => a
  end.

(** ** Data model *)

(** The browser's [File]: what the dashboard reads of it. *)
Record File := mkFile {
  file_name : string;
  file_size : N;
  file_type : string
}.

(** The object built at lines 65-71:
    [{ id, file, name: file.name, size: file.size, type: file.type }]. *)
Record FileDescriptor := mkFileDescriptor {
  id : float;
  file : File;
  name : string;
  size : N;
  type : string
}.

(** ** File intake (processFiles, removeFile) *)

Definition VALID_FILE_TYPES : list string :=
  [ "application/pdf"; "text/markdown"; "text/x-markdown";
    "application/vnd.openxmlformats-officedocument.wordprocessingml.document" ].

Definition MAX_FILE_SIZE : N := 10 * 1024 * 1024.

Definition MAX_FILES_COUNT : nat := 10.

(** [VALID_FILE_TYPES.includes(t)] on the array of strings. *)
Definition array_includes (l : list string) (t : string) : bool :=
  existsb (String.eqb t) l.

(** The callback of [files.filter] (lines 32-44). *)
Definition isValidFile (f : File) : bool :=
  if negb (array_includes VALID_FILE_TYPES (file_type f)) then false
  else if (MAX_FILE_SIZE <? file_size f)%N then false
  else true.

(** The values the host returns to the calls made while one batch is
    mapped: [Date_now i] and [Math_random i] are what [Date.now()] and
    [Math.random()] return inside the callback for the element at index
    [i]. *)
Record IdSource := mkIdSource {
  Date_now : nat -> float;
  Math_random : nat -> float
}.

(** [validFiles.map(file => ({ id: Date.now() + Math.random(), ... }))],
    the callbacks running in index order from [i]. *)
Fixpoint newDescriptors (h : IdSource) (i : nat) (validFiles : list File)
  : list FileDescriptor :=
  match validFiles with
  | [] => []
  | f :: rest =>
      {| id := (Date_now h i + Math_random h i)%float;
         file := f;
         name := file_name f;
         size := file_size f;
         type := file_type f |} :: newDescriptors h (S i) rest
  end.

(** The [alert] calls.  Those of [processFiles], with the numbers they
    interpolate:
    - [AlertRejected n]: "n file(s) were rejected. Only PDF, MD, and DOCX
      files under 10MB are allowed."
    - [AlertOnlyMore n]: "Only n more file(s) can be added. Maximum 10 files
      allowed."
    - [AlertMaxReached]: "Maximum 10 files already uploaded. Please remove
      some files first."
    and the one of [downloadPDF]:
    - [AlertPdfError]: "Error generating PDF. Please try again." *)
Inductive Alert :=
| AlertRejected (rejectedCount : Z)
| AlertOnlyMore (canAdd : Z)
| AlertMaxReached
| AlertPdfError.

(** What one call of [processFiles] does: the alerts it raises, in order,
    and the argument of [setUploadedFiles(prev => [...prev, ...newFiles])]
    when that call is reached ([None] on the two early returns). *)
Record IntakeOutcome := mkIntakeOutcome {
  alerts : list Alert;
  appended : option (list FileDescriptor)
}.

(** [processFiles(files)], lines 26-74.  [uploadedFiles] is the value the
    handler closes over, that is, the state of the render in which the
    event is delivered. *)
Definition processFiles (h : IdSource) (uploadedFiles : list FileDescriptor)
    (files : list File) : IntakeOutcome :=
  let validFiles := filter isValidFile files in
  let rejected :=
    if negb (length validFiles =? length files)
    then [AlertRejected (Z.of_nat (length files) - Z.of_nat (length validFiles))]
    else [] in
  if length validFiles =? 0 then
    {| alerts := rejected; appended := None |}
  else if MAX_FILES_COUNT <? length uploadedFiles + length validFiles then
    let canAdd := (Z.of_nat MAX_FILES_COUNT - Z.of_nat (length uploadedFiles))%Z in
    if (0 <? canAdd)%Z then
      (* validFiles.splice(canAdd) keeps the elements before index canAdd *)
      {| alerts := rejected ++ [AlertOnlyMore canAdd];
         appended := Some (newDescriptors h 0 (firstn (Z.to_nat canAdd) validFiles)) |}
    else
      {| alerts := rejected ++ [AlertMaxReached]; appended := None |}
  else
    {| alerts := rejected;
       appended := Some (newDescriptors h 0 validFiles) |}.

(** The state update queued by [processFiles], applied to the current
    list: [prev => [...prev, ...newFiles]]. *)
Definition setUploadedFiles_append (prev : list FileDescriptor)
    (o : IntakeOutcome) : list FileDescriptor :=
  match appended o with
  | Some newFiles => prev ++ newFiles
  | None => prev
  end.

(** [removeFile(fileId)]: [prev => prev.filter(f => f.id !== fileId)].
    [!==] on two numbers is the IEEE comparison. *)
Definition removeFile (fileId : float) (prev : list FileDescriptor)
  : list FileDescriptor :=
  filter (fun f => negb (PrimFloat.eqb (id f) fileId)) prev.

(** The user actions that change the accepted-file collection.  Each
    handler runs to completion and the component re-renders before the
    next event is delivered, so the list a handler closes over is the
    current one. *)
Inductive IntakeEvent :=
| FilesPicked (h : IdSource) (files : list File)    (* handleFileUpload *)
| FilesDropped (h : IdSource) (files : list File)   (* handleDrop *)
| RemoveClicked (fileId : float).                   (* removeFile *)

Definition intakeStep (uploadedFiles : list FileDescriptor) (e : IntakeEvent)
  : list FileDescriptor :=
  match e with
  | FilesPicked h files | FilesDropped h files =>
      setUploadedFiles_append uploadedFiles (processFiles h uploadedFiles files)
  | RemoveClicked fileId => removeFile fileId uploadedFiles
  end.

(** The collection after a sequence of events, from [useState([])]. *)
Definition intakeRun (events : list IntakeEvent) : list FileDescriptor :=
  fold_left intakeStep events [].

(** What intake is to maintain on each descriptor: an allowed type and a
    size within the cap, both copied from the file it wraps. *)
Definition acceptable (d : FileDescriptor) : Prop :=
  In (type d) VALID_FILE_TYPES /\ (size d <= MAX_FILE_SIZE)%N /\
  type d = file_type (file d) /\ size d = file_size (file d).

(** ** Content extraction (readFileContent) *)

(** [new Error(message)] *)
Record Error := mkError { message : string }.

(** A settled promise. *)
Inductive Promise (A : Type) :=
| Resolved (a : A)
| Rejected (e : Error).
Arguments Resolved {A} a.
Arguments Rejected {A} e.

(** Which of its two handlers a [FileReader] started by [readAsText]
    ends up calling: [onload], with [e.target.result], or [onerror]. *)
Inductive ReadEvent :=
| onload (result : string)
| onerror.

Definition newline : string := String (ascii_of_nat 10) EmptyString.

(** The four arms of the [if]/[else if] chain, lines 102-122. *)
Inductive ExtractorBranch :=
| PdfBranch
| TextBranch
| DocxBranch
| UnsupportedBranch.

Definition extractorBranch (t : string) : ExtractorBranch :=
  if String.eqb t "application/pdf" then PdfBranch
  else if includes t "markdown" || includes t "text" then TextBranch
  else if includes t "wordprocessingml" then DocxBranch
  else UnsupportedBranch.

Definition TRUNCATION_MARKER : string :=
  (newline ++ newline ++ "[Content truncated due to length]")%string.

(** The body of [reader.onload], lines 108-114. *)
Definition limitContent (content : string) : string :=
  if (50000 <? N.of_nat (String.length content))%N
  then (substring 0 (N.to_nat 50000) content ++ TRUNCATION_MARKER)%string
  else content.

Definition pdfPlaceholder (n : string) : string :=
  ("[PDF Document: " ++ n ++ "]" ++ newline ++ newline ++
   "This is a PDF document. The content will be processed on the server side for better text extraction and analysis.")%string.

Definition docxPlaceholder (n : string) : string :=
  ("[DOCX Document: " ++ n ++ "]" ++ newline ++ newline ++
   "This is a Word document. The content will be processed on the server side for better text extraction and analysis.")%string.

Definition unsupportedPlaceholder (t : string) : string :=
  ("[Unsupported file type: " ++ t ++ "]")%string.

(** [readFileContent(file)], lines 98-126, as the promise it returns once
    settled.  The reader is started in the text arm only, so [onerror] can
    fire in that arm only. *)
Definition readFileContent (readAsText : File -> ReadEvent) (f : File)
  : Promise string :=
  match extractorBranch (file_type f) with
  | PdfBranch => Resolved (pdfPlaceholder (file_name f))
  | TextBranch =>
      match readAsText f with
      | onload content => Resolved (limitContent content)
      | onerror => Rejected (mkError "Failed to read file")
      end
  | DocxBranch => Resolved (docxPlaceholder (file_name f))
  | UnsupportedBranch => Resolved (unsupportedPlaceholder (file_type f))
  end.

(** ** Component state, requests and the host *)

(** The parsed response body, [{ message, project_name, brd_markdown,
    llm_provider_used, summary? }]. *)
Record GenerationResult := mkGenerationResult {
  status_message : string;          (* message *)
  project_name : string;
  brd_markdown : string;
  llm_provider_used : string;
  files_processed : option nat      (* summary?.files_processed *)
}.

(** The eight [useState] cells of the component. *)
Record Dashboard := mkDashboard {
  projectDescription : string;
  additionalInfo : string;
  uploadedFiles : list FileDescriptor;
  isGenerating : bool;
  isGeneratingPDF : bool;
  isProcessingFiles : bool;
  result : option GenerationResult;
  error : option string
}.

Module Wire.
(** One element of [uploaded_files]. *)
Record ExtractedContent := mkExtractedContent {
  filename : string;
  content : string;
  type : string
}.

(** The object given to [JSON.stringify]; the text-only body has no
    [uploaded_files] key. *)
Record Body := mkBody {
  project_description : string;
  uploaded_files : option (list ExtractedContent);
  model : string
}.
End Wire.

(** The arguments of one [fetch] call. *)
Record Request := mkRequest {
  url : string;
  method : string;
  content_type : string;
  body : Wire.Body
}.

(** How a [fetch] ends: the promise rejects, or it resolves to a response
    with its [ok] and [status] and the settlement of [response.json()]. *)
Inductive FetchOutcome :=
| TransportFailure (e : Error)
| Response (ok : bool) (status : nat) (json : Promise GenerationResult).

(** A DOM element, as far as the export touches it.  [node_id] stands for
    the identity of the object [document.createElement] returns. *)
Record Node := mkNode {
  node_id : nat;
  tagName : string;
  style : list (string * string);
  innerHTML : string
}.

(** The canvas [html2canvas] resolves to. *)
Record Canvas := mkCanvas {
  width : float;
  height : float
}.

(** One [pdf.addImage(canvas, 'JPEG', 0, position, imgWidth, imgHeight)]. *)
Record Placement := mkPlacement {
  position : float;
  drawnWidth : float;
  drawnHeight : float
}.

(** A jsPDF document: the pages completed so far and the page that
    [addImage] currently draws on. *)
Record Pdf := mkPdf {
  earlier : list (list Placement);
  current : list Placement
}.

Definition pages (pdf : Pdf) : list (list Placement) :=
  earlier pdf ++ [current pdf].

(** A synchronous call into a library: it returns or it throws. *)
Inductive Completion (A : Type) :=
| Normal (a : A)
| Abrupt (e : Error).
Arguments Normal {A} a.
Arguments Abrupt {A} e.

(** What the environment answers: the file reader, the network, the
    markdown parser, the locale, the rasteriser and jsPDF. *)
Record Host := mkHost {
  readAsText : File -> ReadEvent;
  fetch : Request -> FetchOutcome;
  marked : string -> Completion string;
  toLocaleDateString : string;
  html2canvas : Node -> Promise Canvas;
  addImage_throws : Canvas -> float -> option Error;
  save_throws : string -> option Error
}.

(** Everything the handlers can change: the component state, the requests
    sent so far, the children of [document.body], the alerts shown, the
    documents saved, and the number of elements created. *)
Record World := mkWorld {
  ui : Dashboard;
  network : list Request;
  document_body : list Node;
  alerted : list Alert;
  saved : list (string * Pdf);
  created : nat
}.

(** ** Effects: state, exceptions, fuel *)

Inductive Outcome (A : Type) :=
| Returned (a : A)
| Thrown (e : Error)
| OutOfFuel.
Arguments Returned {A} a.
Arguments Thrown {A} e.
Arguments OutOfFuel {A}.

Definition Eff (A : Type) : Type := World -> Outcome A * World.

Definition ret {A} (a : A) : Eff A := fun w => (Returned a, w).

Definition bind {A B} (m : Eff A) (k : A -> Eff B) : Eff B :=
  fun w =>
    match m w with
    | (Returned a, w') => k a w'
    | (Thrown e, w') => (Thrown e, w')
    | (OutOfFuel, w') => (OutOfFuel, w')
    end.

Notation "x <- m ;; k" := (bind m (fun x => k))
  (at level 61, m at next level, right associativity).
Notation "m ;; k" := (bind m (fun _ => k))
  (at level 61, right associativity).

Definition throw {A} (e : Error) : Eff A := fun w => (Thrown e, w).

Definition outOfFuel {A} : Eff A := fun w => (OutOfFuel, w).

Definition modify (f : World -> World) : Eff unit := fun w => (Returned tt, f w).

(** [await p] *)
Definition await {A} (p : Promise A) : Eff A :=
  match p with
  | Resolved a => ret a
  | Rejected e => throw e
  end.

Definition call {A} (c : Completion A) : Eff A :=
  match c with
  | Normal a => ret a
  | Abrupt e => throw e
  end.

(** [try { body } catch (err) { handler(err) } finally { final }], for
    bodies that produce no value. *)
Definition try_catch_finally (body : Eff unit) (handler : Error -> Eff unit)
    (final : Eff unit) : Eff unit :=
  fun w =>
    match body w with
    | (Returned _, w1) => final w1
    | (Thrown err, w1) =>
        match handler err w1 with
        | (Returned _, w2) => final w2
        | (Thrown e, w2) =>
            match final w2 with
            | (Returned _, w3) => (Thrown e, w3)
            | other => other
            end
        | (OutOfFuel, w2) => (OutOfFuel, w2)
        end
    | (OutOfFuel, w1) => (OutOfFuel, w1)
    end.

(** The state setters. *)
Definition update_ui (f : Dashboard -> Dashboard) : Eff unit :=
  modify (fun w =>
    {| ui := f (ui w); network := network w; document_body := document_body w;
       alerted := alerted w; saved := saved w; created := created w |}).

Definition setIsGenerating (b : bool) : Eff unit :=
  update_ui (fun d =>
    {| projectDescription := projectDescription d; additionalInfo := additionalInfo d;
       uploadedFiles := uploadedFiles d; isGenerating := b;
       isGeneratingPDF := isGeneratingPDF d; isProcessingFiles := isProcessingFiles d;
       result := result d; error := error d |}).

Definition setIsGeneratingPDF (b : bool) : Eff unit :=
  update_ui (fun d =>
    {| projectDescription := projectDescription d; additionalInfo := additionalInfo d;
       uploadedFiles := uploadedFiles d; isGenerating := isGenerating d;
       isGeneratingPDF := b; isProcessingFiles := isProcessingFiles d;
       result := result d; error := error d |}).

Definition setIsProcessingFiles (b : bool) : Eff unit :=
  update_ui (fun d =>
    {| projectDescription := projectDescription d; additionalInfo := additionalInfo d;
       uploadedFiles := uploadedFiles d; isGenerating := isGenerating d;
       isGeneratingPDF := isGeneratingPDF d; isProcessingFiles := b;
       result := result d; error := error d |}).

Definition setResult (r : option GenerationResult) : Eff unit :=
  update_ui (fun d =>
    {| projectDescription := projectDescription d; additionalInfo := additionalInfo d;
       uploadedFiles := uploadedFiles d; isGenerating := isGenerating d;
       isGeneratingPDF := isGeneratingPDF d; isProcessingFiles := isProcessingFiles d;
       result := r; error := error d |}).

Definition setError (e : option string) : Eff unit :=
  update_ui (fun d =>
    {| projectDescription := projectDescription d; additionalInfo := additionalInfo d;
       uploadedFiles := uploadedFiles d; isGenerating := isGenerating d;
       isGeneratingPDF := isGeneratingPDF d; isProcessingFiles := isProcessingFiles d;
       result := result d; error := e |}).

(** ** Request composition (generateBRD) *)

(** [await fetch(url, { method, headers, body })]: the request leaves, then
    the promise settles as the host says. *)
Definition doFetch (h : Host) (r : Request) : Eff (bool * nat * Promise GenerationResult) :=
  modify (fun w =>
    {| ui := ui w; network := network w ++ [r]; document_body := document_body w;
       alerted := alerted w; saved := saved w; created := created w |}) ;;
  match fetch h r with
  | TransportFailure e => throw e
  | Response ok status json => ret (ok, status, json)
  end.

Definition post (u : string) (b : Wire.Body) : Request :=
  {| url := u; method := "POST"; content_type := "application/json"; body := b |}.

(** The template [`HTTP error! status: ${response.status}`]. *)
Definition httpError (status : nat) : Error :=
  mkError ("HTTP error! status: " ++ NilEmpty.string_of_uint (Nat.to_uint status))%string.

(** The common tail of the three arms: send, check [response.ok], parse,
    [setResult(data)]. *)
Definition sendAndStore (h : Host) (r : Request) : Eff unit :=
  response <- doFetch h r ;;
  let '(ok, status, json) := response in
  if negb ok then throw (httpError status)
  else
    data <- await json ;;
    setResult (Some data).

(** The callback of [uploadedFiles.map(async (fileObj) => ...)]. *)
Definition extractOne (h : Host) (fileObj : FileDescriptor)
  : Promise Wire.ExtractedContent :=
  match readFileContent (readAsText h) (file fileObj) with
  | Resolved content =>
      Resolved {| Wire.filename := name fileObj;
                  Wire.content := content;
                  Wire.type := type fileObj |}
  | Rejected e => Rejected e
  end.

(** [Promise.all]: the values in order when every promise resolves, and
    otherwise a rejection.  The host rejects with the reason of the
    promise that rejects first in time; the model takes the first in array
    order. *)
Fixpoint Promise_all {A} (ps : list (Promise A)) : Promise (list A) :=
  match ps with
  | [] => Resolved []
  | Rejected e :: _ => Rejected e
  | Resolved a :: rest =>
      match Promise_all rest with
      | Resolved l => Resolved (a :: l)
      | Rejected e => Rejected e
      end
  end.

(** The predicate of [uploadedFiles.some], lines 134-138. *)
Definition looksLikeBRD (f : FileDescriptor) : bool :=
  includes (toLowerCase (name f)) "brd" ||
  includes (toLowerCase (name f)) "business requirements" ||
  includes (toLowerCase (name f)) "requirements document".

(** [generateBRD()], lines 128-222.  [snap] holds the values the handler
    closes over. *)
Definition generateBRD (h : Host) (snap : Dashboard) : Eff unit :=
  setIsGenerating true ;;
  setError None ;;
  try_catch_finally
    (let hasExistingBRD := existsb looksLikeBRD (uploadedFiles snap) in
     if 0 <? length (uploadedFiles snap) then
       setIsProcessingFiles true ;;
       fileContents <- await (Promise_all (map (extractOne h) (uploadedFiles snap))) ;;
       setIsProcessingFiles false ;;
       if hasExistingBRD then
         sendAndStore h
           (post "/api/generate_brd_with_files"
              {| Wire.project_description :=
                   js_or (additionalInfo snap) "Improve existing BRD document";
                 Wire.uploaded_files := Some fileContents;
                 Wire.model := "gemini-2.0-flash" |})
       else
         sendAndStore h
           (post "/api/generate_brd_with_files"
              {| Wire.project_description :=
                   js_or (projectDescription snap)
                     (js_or (additionalInfo snap)
                        "Project requirements from uploaded files");
                 Wire.uploaded_files := Some fileContents;
                 Wire.model := "gemini-2.0-flash" |})
     else
       sendAndStore h
         (post "/api/generate_brd_from_input"
            {| Wire.project_description :=
                 js_or (projectDescription snap)
                   (js_or (additionalInfo snap) "Project requirements");
               Wire.uploaded_files := None;
               Wire.model := "gemini-2.0-flash" |}))
    (fun err => setError (Some (js_or (message err) "Failed to generate BRD")))
    (setIsGenerating false).

(** ** Paginated PDF export (downloadPDF) *)

(** [s.replace(/pat/g, rep)] for a literal, non-empty [pat]: the matches
    are found left to right and do not overlap.  [skip] counts the code
    units of a match still to be dropped. *)
Fixpoint replaceAll_from (skip : nat) (pat rep s : string) : string :=
  match s with
  | EmptyString => EmptyString
  | String c s' =>
      match skip with
      | S k => replaceAll_from k pat rep s'
      | O =>
          if prefix pat s
          then (rep ++ replaceAll_from (String.length pat - 1) pat rep s')%string
          else String c (replaceAll_from 0 pat rep s')
      end
  end.

Definition replaceAll (pat rep s : string) : string := replaceAll_from 0 pat rep s.

(** [\s] on code units below 256: tab, line feed, vertical tab, form feed,
    carriage return, space, no-break space. *)
Definition isWhitespace (c : ascii) : bool :=
  let n := nat_of_ascii c in
  ((9 <=? n) && (n <=? 13)) || (n =? 32) || (n =? 160).

(** [s.replace(/\s+/g, '_')]: every maximal run of whitespace becomes one
    underscore.  [inRun] tells that the previous code unit was whitespace. *)
Fixpoint underscoreRuns (inRun : bool) (s : string) : string :=
  match s with
  | EmptyString => EmptyString
  | String c s' =>
      if isWhitespace c
      then if inRun then underscoreRuns true s'
           else String "_" (underscoreRuns true s')
      else String c (underscoreRuns false s')
  end.

Definition quote : string := String (ascii_of_nat 34) EmptyString.

(** [<tag style="css"], the replacement text of lines 255-262. *)
Definition styled (tag css : string) : string :=
  ("<" ++ tag ++ " style=" ++ quote ++ css ++ quote)%string.

Definition STYLE_RULES : list (string * string) :=
  [ ("h1", "color: #1f2937; font-size: 18px; margin: 20px 0 10px 0; border-bottom: 1px solid #e5e7eb; padding-bottom: 5px;");
    ("h2", "color: #374151; font-size: 16px; margin: 18px 0 8px 0; font-weight: bold;");
    ("h3", "color: #4b5563; font-size: 14px; margin: 16px 0 6px 0; font-weight: bold;");
    ("ul", "margin: 10px 0; padding-left: 20px;");
    ("li", "margin: 5px 0;");
    ("p", "margin: 8px 0;");
    ("strong", "font-weight: bold;");
    ("em", "font-style: italic;") ].

(** The chain of eight [.replace] calls, applied in order. *)
Definition enhanceHtml (htmlContent : string) : string :=
  fold_left
    (fun acc rule => replaceAll ("<" ++ fst rule)%string (styled (fst rule) (snd rule)) acc)
    STYLE_RULES htmlContent.

Definition unlines (l : list string) : string :=
  fold_right (fun line acc => (line ++ newline ++ acc)%string) EmptyString l.

(** The template literal assigned to [tempContainer.innerHTML]. *)
Definition containerMarkup (title date htmlContent : string) : string :=
  (newline ++
   unlines
     [ "        <div" ++ " style=" ++ quote ++ "text-align: center; margin-bottom: 30px;" ++ quote ++ ">";
       "          " ++ styled "h1" "color: #1f2937; font-size: 24px; margin-bottom: 10px; border-bottom: 2px solid #3b82f6; padding-bottom: 10px;" ++ ">";
       "            Business Requirements Document (BRD)";
       "          </h1>";
       "          " ++ styled "h2" "color: #374151; font-size: 20px; margin: 0;" ++ ">";
       "            " ++ title;
       "          </h2>";
       "          " ++ styled "p" "color: #6b7280; font-size: 14px; margin: 10px 0 0 0;" ++ ">";
       "            Generated on " ++ date;
       "          </p>";
       "        </div>";
       "        " ++ styled "div" "text-align: left; font-size: 12px; line-height: 1.6;" ++ ">";
       "          " ++ htmlContent;
       "        </div>" ] ++
   "      ")%string.

Definition CONTAINER_STYLE : list (string * string) :=
  [ ("position", "absolute"); ("left", "-9999px"); ("top", "0");
    ("width", "800px"); ("padding", "40px"); ("backgroundColor", "white");
    ("fontFamily", "Arial, sans-serif"); ("fontSize", "12px");
    ("lineHeight", "1.6"); ("color", "#333");
    ("boxShadow", "0 0 10px rgba(0,0,0,0.1)"); ("borderRadius", "8px") ].

(** [document.createElement(tag)]: a new, detached element. *)
Definition createElement (tag : string) : Eff Node :=
  fun w =>
    (Returned {| node_id := created w; tagName := tag; style := []; innerHTML := "" |},
     {| ui := ui w; network := network w; document_body := document_body w;
        alerted := alerted w; saved := saved w; created := S (created w) |}).

(** [document.body.appendChild(n)] *)
Definition appendChild (n : Node) : Eff unit :=
  modify (fun w =>
    {| ui := ui w; network := network w; document_body := document_body w ++ [n];
       alerted := alerted w; saved := saved w; created := created w |}).

(** [document.body.removeChild(n)], for a child [n] of the body. *)
Definition removeChild (n : Node) : Eff unit :=
  modify (fun w =>
    {| ui := ui w; network := network w;
       document_body := filter (fun c => negb (node_id c =? node_id n)) (document_body w);
       alerted := alerted w; saved := saved w; created := created w |}).

Definition alert (a : Alert) : Eff unit :=
  modify (fun w =>
    {| ui := ui w; network := network w; document_body := document_body w;
       alerted := alerted w ++ [a]; saved := saved w; created := created w |}).

(** [new jsPDF('p', 'mm', 'a4')]: one empty page. *)
Definition new_jsPDF : Pdf := {| earlier := []; current := [] |}.

(** [pdf.addPage()] *)
Definition addPage (pdf : Pdf) : Pdf :=
  {| earlier := earlier pdf ++ [current pdf]; current := [] |}.

(** [pdf.addImage(canvas, 'JPEG', 0, position, imgWidth, imgHeight)] *)
Definition addImage (h : Host) (pdf : Pdf) (canvas : Canvas)
    (pos imgWidth imgHeight : float) : Eff Pdf :=
  match addImage_throws h canvas pos with
  | Some e => throw e
  | None =>
      ret {| earlier := earlier pdf;
             current := current pdf ++
               [ {| position := pos; drawnWidth := imgWidth; drawnHeight := imgHeight |} ] |}
  end.

(** [pdf.save(filename)] *)
Definition save (h : Host) (pdf : Pdf) (filename : string) : Eff unit :=
  match save_throws h filename with
  | Some e => throw e
  | None =>
      modify (fun w =>
        {| ui := ui w; network := network w; document_body := document_body w;
           alerted := alerted w; saved := saved w ++ [(filename, pdf)];
           created := created w |})
  end.

(** The loop of lines 328-333; [heightLeft >= 0] is the IEEE comparison.
    [fuel] bounds the number of iterations. *)
Fixpoint additionalPages (h : Host) (fuel : nat) (canvas : Canvas)
    (imgWidth pageHeight imgHeight heightLeft : float) (pdf : Pdf) : Eff Pdf :=
  if (0 <=? heightLeft)%float then
    match fuel with
    | O => outOfFuel
    | S fuel' =>
        let pos := (heightLeft - imgHeight)%float in
        pdf <- addImage h (addPage pdf) canvas pos imgWidth imgHeight ;;
        additionalPages h fuel' canvas imgWidth pageHeight imgHeight
          (heightLeft - pageHeight)%float pdf
    end
  else ret pdf.

(** Lines 316-336: build the document from the canvas and save it. *)
Definition paginate (h : Host) (fuel : nat) (canvas : Canvas) (filename : string)
  : Eff unit :=
  let pdf := new_jsPDF in
  let imgWidth := 210%float in
  let pageHeight := 295%float in
  let imgHeight := (height canvas * imgWidth / width canvas)%float in
  let heightLeft := imgHeight in
  let pos := 0%float in
  pdf <- addImage h pdf canvas pos imgWidth imgHeight ;;
  let heightLeft := (heightLeft - pageHeight)%float in
  pdf <- additionalPages h fuel canvas imgWidth pageHeight imgHeight heightLeft pdf ;;
  save h pdf filename.

(** [downloadPDF()], lines 238-344.  [marked.setOptions] only configures
    the parser, whose answer is the host's; the twelve style assignments
    and the [innerHTML] assignment are made on the detached element, and
    appear here as the fields of [tempContainer]. *)
Definition downloadPDF (h : Host) (fuel : nat) (snap : Dashboard) : Eff unit :=
  match result snap with
  | None => ret tt
  | Some result =>
      setIsGeneratingPDF true ;;
      try_catch_finally
        (htmlContent <- call (marked h (brd_markdown result)) ;;
         let htmlContent := enhanceHtml htmlContent in
         element <- createElement "div" ;;
         let tempContainer :=
           {| node_id := node_id element; tagName := tagName element;
              style := CONTAINER_STYLE;
              innerHTML := containerMarkup (project_name result)
                             (toLocaleDateString h) htmlContent |} in
         appendChild tempContainer ;;
         canvas <- await (html2canvas h tempContainer) ;;
         removeChild tempContainer ;;
         paginate h fuel canvas
           (underscoreRuns false (project_name result) ++ "_BRD.pdf")%string)
        (fun _ => alert AlertPdfError)
        (setIsGeneratingPDF false)
  end.

(** ** Presentation helpers *)

(** [getFileTypeLabel(fileType)], lines 357-366. *)
Definition getFileTypeLabel (fileType : string) : string :=
  if String.eqb fileType "application/pdf" then "PDF"
  else if includes fileType "markdown" || includes fileType "text" then "Markdown"
  else if includes fileType "wordprocessingml" then "DOCX"
  else "Unknown".

(** The four pictographs [getFileIcon] returns; they lie outside the code
    units the string model covers, so they are named: U+1F4C4, U+1F4DD,
    U+1F4D8 and U+1F4C1. *)
Inductive Icon :=
| PageFacingUp
| Memo
| BlueBook
| FileFolder.

(** [getFileIcon(fileType)], lines 346-355. *)
Definition getFileIcon (fileType : string) : Icon :=
  if String.eqb fileType "application/pdf" then PageFacingUp
  else if includes fileType "markdown" || includes fileType "text" then Memo
  else if includes fileType "wordprocessingml" then BlueBook
  else FileFolder.

(** [uploadedFiles.reduce((acc, file) => acc + file.size, 0)], line 486. *)
Definition totalSize (uploadedFiles : list FileDescriptor) : N :=
  fold_left (fun acc f => (acc + size f)%N) uploadedFiles 0%N.

(** [s.trim()]: whitespace and line terminators are dropped at both
    ends. *)
Fixpoint trimStart (s : string) : string :=
  match s with
  | EmptyString => EmptyString
  | String c s' => if isWhitespace c then trimStart s' else s
  end.

Fixpoint trimEnd (s : string) : string :=
  match s with
  | EmptyString => EmptyString
  | String c s' =>
      match trimEnd s' with
      | EmptyString => if isWhitespace c then EmptyString else String c EmptyString
      | rest => String c rest
      end
  end.

Definition trim (s : string) : string := trimEnd (trimStart s).

(** [!s] on a string. *)
Definition js_not (s : string) : bool :=
  match s with
  | EmptyString => true
  | _ => false
  end.

(** The [disabled] attribute of the Generate button, line 526. *)
Definition generateDisabled (d : Dashboard) : bool :=
  isGenerating d || isProcessingFiles d ||
  (js_not (trim (projectDescription d)) && js_not (trim (additionalInfo d)) &&
   (length (uploadedFiles d) =? 0)).

(** ** Drag-and-drop highlighting (handleDragOver, handleDragLeave, handleDrop) *)

(** [classList.add(...tokens)] on the ordered token set of an element:
    a token already present is not added again. *)
Definition classList_add (tokens classList : list string) : list string :=
  fold_left
    (fun acc t => if array_includes acc t then acc else acc ++ [t])
    tokens classList.

(** [classList.remove(...tokens)] *)
Definition classList_remove (tokens classList : list string) : list string :=
  filter (fun c => negb (array_includes tokens c)) classList.

Definition HIGHLIGHT : list string := [ "border-blue-400"; "bg-blue-50" ].

(** [handleDragOver(e)], lines 76-79, on [e.currentTarget.classList]. *)
Definition handleDragOver (classList : list string) : list string :=
  classList_add HIGHLIGHT classList.

(** [handleDragLeave(e)], lines 81-84. *)
Definition handleDragLeave (classList : list string) : list string :=
  classList_remove HIGHLIGHT classList.

(** [handleDrop(e)], lines 86-92: the highlight is removed and the dropped
    files go through [processFiles]. *)
Definition handleDrop (h : IdSource) (classList : list string)
    (uploadedFiles : list FileDescriptor) (files : list File)
  : list string * list FileDescriptor :=
  (classList_remove HIGHLIGHT classList,
   setUploadedFiles_append uploadedFiles (processFiles h uploadedFiles files)).

(** ** Text export (downloadBRD) *)

(** [new Blob(parts, { type })] *)
Record Blob := mkBlob {
  parts : list string;
  blob_type : string
}.

(** What [downloadBRD] touches: the children of [document.body] (by
    identity), the object URLs handed out so far with the blob each one
    stands for, the files the browser has saved, and the number of
    elements created.  The URL [URL.createObjectURL] returns is an opaque
    fresh string; it is represented by its index in [object_urls]. *)
Record DownloadPage := mkDownloadPage {
  body_children : list nat;
  object_urls : list Blob;
  downloads : list (string * Blob);
  elements_created : nat
}.

(** [element.click()] on a detached or attached [<a href download>]: the
    browser saves what the URL stands for under the [download] name. *)
Definition clickAnchor (href : nat) (downloadName : string) (p : DownloadPage)
  : DownloadPage :=
  match nth_error (object_urls p) href with
  | Some blob =>
      {| body_children := body_children p; object_urls := object_urls p;
         downloads := downloads p ++ [(downloadName, blob)];
         elements_created := elements_created p |}
  | None => p
  end.

(** [downloadBRD()], lines 226-236. *)
Definition downloadBRD (snap : Dashboard) (p : DownloadPage) : DownloadPage :=
  match result snap with
  | None => p
  | Some result =>
      (* document.createElement('a') *)
      let element := elements_created p in
      let p := {| body_children := body_children p; object_urls := object_urls p;
                  downloads := downloads p;
                  elements_created := S (elements_created p) |} in
      let file := {| parts := [brd_markdown result]; blob_type := "text/markdown" |} in
      (* element.href = URL.createObjectURL(file) *)
      let href := length (object_urls p) in
      let p := {| body_children := body_children p;
                  object_urls := object_urls p ++ [file];
                  downloads := downloads p;
                  elements_created := elements_created p |} in
      let downloadName :=
        (underscoreRuns false (project_name result) ++ "_BRD.md")%string in
      (* document.body.appendChild(element) *)
      let p := {| body_children := body_children p ++ [element];
                  object_urls := object_urls p; downloads := downloads p;
                  elements_created := elements_created p |} in
      let p := clickAnchor href downloadName p in
      (* document.body.removeChild(element) *)
      {| body_children := filter (fun c => negb (c =? element)) (body_children p);
         object_urls := object_urls p; downloads := downloads p;
         elements_created := elements_created p |}
  end.

(** ** Concrete scenarios *)

(** Twelve candidate files, one of them with a type outside the
    allow-list, offered to a collection of three. *)
Definition note (n : string) : File :=
  {| file_name := n; file_size := 2048; file_type := "text/markdown" |}.

Definition steadyIds : IdSource :=
  {| Date_now := fun _ => 1700000000000%float;
     Math_random := fun i => (PrimFloat.of_uint63 (Uint63.of_nat (S i)) / 1024)%float |}.

Definition threeHeld : list FileDescriptor :=
  intakeRun [FilesPicked steadyIds [note "a.md"; note "b.md"; note "c.md"]].

Definition twelveOffered : list File :=
  [ note "d1.md"; note "d2.md";
    {| file_name := "pic.png"; file_size := 10; file_type := "image/png" |};
    note "d3.md"; note "d4.md"; note "d5.md"; note "d6.md"; note "d7.md";
    note "d8.md"; note "d9.md"; note "d10.md"; note "d11.md" ].

(** Two draws of [Math.random()] that differ by 2^-20, in the same
    millisecond. *)
Definition sameInstant : IdSource :=
  {| Date_now := fun _ => 1700000000000%float;
     Math_random := fun i =>
       match i with
       | O => 0.5%float
       | S _ => 0.50000095367431640625%float
       end |}.

Fixpoint repeatUnit (c : ascii) (n : nat) : string :=
  match n with
  | O => EmptyString
  | S n' => String c (repeatUnit c n')
  end.

(** A text of exactly 50,000 code units. *)
Definition atThreshold : string := repeatUnit "a" (N.to_nat 50000).

(** A host whose reads, requests and library calls all succeed. *)
Definition sampleResult : GenerationResult :=
  {| status_message := "BRD generated";
     project_name := "Payroll Portal";
     brd_markdown := "# Payroll Portal";
     llm_provider_used := "gemini";
     files_processed := None |}.

Definition obligingHost : Host :=
  {| readAsText := fun _ => onload "# Notes";
     fetch := fun _ => Response true 200 (Resolved sampleResult);
     marked := fun md => Normal ("<p>" ++ md ++ "</p>")%string;
     toLocaleDateString := "11/1/2026";
     html2canvas := fun _ => Resolved {| width := 2400; height := 3000 |};
     addImage_throws := fun _ _ => None;
     save_throws := fun _ => None |}.

(** The same host with a file reader that fails. *)
Definition unreadableHost : Host :=
  {| readAsText := fun _ => onerror;
     fetch := fetch obligingHost;
     marked := marked obligingHost;
     toLocaleDateString := toLocaleDateString obligingHost;
     html2canvas := html2canvas obligingHost;
     addImage_throws := addImage_throws obligingHost;
     save_throws := save_throws obligingHost |}.

(** The component as [useState] initialises it, then with two text fields
    and a list of files filled in. *)
Definition filledIn (description info : string) (files : list File) : Dashboard :=
  {| projectDescription := description;
     additionalInfo := info;
     uploadedFiles := intakeRun [FilesPicked steadyIds files];
     isGenerating := false;
     isGeneratingPDF := false;
     isProcessingFiles := false;
     result := None;
     error := None |}.

Definition pageLoaded (d : Dashboard) : World :=
  {| ui := d; network := []; document_body := []; alerted := [];
     saved := []; created := 0 |}.

(** A rasteriser that fails, and one that returns a canvas of 2400 by
    70800 pixels (a container 23600 pixels high at scale 3). *)
Definition failingRasteriser : Host :=
  {| readAsText := readAsText obligingHost;
     fetch := fetch obligingHost;
     marked := marked obligingHost;
     toLocaleDateString := toLocaleDateString obligingHost;
     html2canvas := fun _ => Rejected (mkError "Unable to render");
     addImage_throws := addImage_throws obligingHost;
     save_throws := save_throws obligingHost |}.

Definition tallRasteriser : Host :=
  {| readAsText := readAsText obligingHost;
     fetch := fetch obligingHost;
     marked := marked obligingHost;
     toLocaleDateString := toLocaleDateString obligingHost;
     html2canvas := fun _ => Resolved {| width := 2400; height := 70800 |};
     addImage_throws := addImage_throws obligingHost;
     save_throws := save_throws obligingHost |}.

(** The component once a result has arrived. *)
Definition generated : Dashboard :=
  {| projectDescription := "Payroll portal";
     additionalInfo := "";
     uploadedFiles := [];
     isGenerating := false;
     isGeneratingPDF := false;
     isProcessingFiles := false;
     result := Some sampleResult;
     error := None |}.

(** Ten markdown files, picked at once into an empty collection. *)
Definition tenNotes : list File :=
  [ note "n1.md"; note "n2.md"; note "n3.md"; note "n4.md"; note "n5.md";
    note "n6.md"; note "n7.md"; note "n8.md"; note "n9.md"; note "n10.md" ].

Definition tenHeld : list FileDescriptor :=
  intakeRun [FilesPicked steadyIds tenNotes].

(** The second of the three entries held. *)
Definition secondHeld : FileDescriptor :=
  {| id := (1700000000000 + 2 / 1024)%float;
     file := note "b.md";
     name := "b.md";
     size := 2048;
     type := "text/markdown" |}.

(** A descriptor for a PDF whose name spells the keyword in capitals. *)
Definition finalBRD : FileDescriptor :=
  {| id := (1700000000000 + 1 / 1024)%float;
     file := {| file_name := "Final_BRD_v2.pdf"; file_size := 4096;
                file_type := "application/pdf" |};
     name := "Final_BRD_v2.pdf";
     size := 4096;
     type := "application/pdf" |}.

(** A markdown parser that throws. *)
Definition brokenParser : Host :=
  {| readAsText := readAsText obligingHost;
     fetch := fetch obligingHost;
     marked := fun _ => Abrupt (mkError "marked(): input parameter is of type [object Object]");
     toLocaleDateString := toLocaleDateString obligingHost;
     html2canvas := html2canvas obligingHost;
     addImage_throws := addImage_throws obligingHost;
     save_throws := save_throws obligingHost |}.

(** A page with two children in the body, before any export. *)
Definition freshPage : DownloadPage :=
  {| body_children := [0; 1]; object_urls := []; downloads := [];
     elements_created := 2 |}.

(** The class attribute of the drop zone. *)
Definition dropZoneClasses : list string :=
  [ "border-2"; "border-dashed"; "border-gray-300"; "rounded-lg"; "p-3";
    "hover:border-blue-400"; "transition-colors"; "duration-200" ].

(* ================================================================= *)
(** * Theorems *)

(** Unfolds the effect combinators and the primitive operations, so that
    a handler applied to a world reduces to a value. *)
Ltac run_effects :=
  unfold try_catch_finally, bind, call, await, doFetch, createElement,
    appendChild, removeChild, alert, setIsGenerating, setIsGeneratingPDF,
    setIsProcessingFiles, setResult, setError, update_ui, modify, ret, throw.

(** ** File intake *)

Lemma array_includes_In (l : list string) (t : string) :
  array_includes l t = true <-> In t l.
Proof.
  unfold array_includes. rewrite existsb_exists. split.
  - intros [x [Hx Heq]]. apply String.eqb_eq in Heq. now subst.
  - intros H. exists t. split; [assumption | apply String.eqb_refl].
Qed.

Lemma isValidFile_spec (f : File) :
  isValidFile f = true <->
  In (file_type f) VALID_FILE_TYPES /\ (file_size f <= MAX_FILE_SIZE)%N.
Proof.
  unfold isValidFile.
  destruct (array_includes VALID_FILE_TYPES (file_type f)) eqn:Ht; cbn [negb].
  - apply array_includes_In in Ht.
    destruct (MAX_FILE_SIZE <? file_size f)%N eqn:Hs.
    + apply N.ltb_lt in Hs. split; [discriminate | lia].
    + apply N.ltb_ge in Hs. tauto.
  - split; [discriminate |]. intros [Hin _].
    apply array_includes_In in Hin. congruence.
Qed.

Lemma newDescriptors_length (h : IdSource) (l : list File) :
  forall i, length (newDescriptors h i l) = length l.
Proof. induction l as [| f l IH]; intros i; simpl; [reflexivity | now rewrite IH]. Qed.

Lemma newDescriptors_files (h : IdSource) (l : list File) :
  forall i, map file (newDescriptors h i l) = l.
Proof. induction l as [| f l IH]; intros i; simpl; [reflexivity | now rewrite IH]. Qed.

Lemma newDescriptors_acceptable (h : IdSource) (l : list File) :
  Forall (fun f => isValidFile f = true) l ->
  forall i, Forall acceptable (newDescriptors h i l).
Proof.
  induction 1 as [| f l Hf _ IH]; intros i; simpl; constructor.
  - apply isValidFile_spec in Hf. unfold acceptable; simpl. tauto.
  - apply IH.
Qed.

Lemma filter_all_valid (files : list File) :
  Forall (fun f => isValidFile f = true) (filter isValidFile files).
Proof. apply Forall_forall. intros f Hf. now apply filter_In in Hf. Qed.

Lemma Forall_firstn {A} (P : A -> Prop) (n : nat) (l : list A) :
  Forall P l -> Forall P (firstn n l).
Proof.
  intros H. revert n.
  induction H as [| x l Hx _ IH]; intros [| n]; simpl; constructor; auto.
Qed.

(** What [processFiles] appends is acceptable, and never brings a list of
    at most ten entries above ten. *)
Lemma processFiles_appended (h : IdSource) (cur : list FileDescriptor)
    (files : list File) (newFiles : list FileDescriptor) :
  appended (processFiles h cur files) = Some newFiles ->
  Forall acceptable newFiles /\
  length cur + length newFiles <= MAX_FILES_COUNT.
Proof.
  unfold processFiles.
  pose proof (filter_all_valid files) as Hv.
  set (validFiles := filter isValidFile files) in *.
  destruct (length validFiles =? 0); [discriminate |].
  destruct (MAX_FILES_COUNT <? length cur + length validFiles) eqn:Hover.
  - remember (Z.of_nat MAX_FILES_COUNT - Z.of_nat (length cur))%Z as canAdd
      eqn:HcanAdd.
    destruct (0 <? canAdd)%Z eqn:Hcan; [| discriminate].
    cbn [appended]. intros [= <-]. split.
    + apply newDescriptors_acceptable. now apply Forall_firstn.
    + rewrite newDescriptors_length, length_firstn.
      apply Z.ltb_lt in Hcan. unfold MAX_FILES_COUNT in *. lia.
  - cbn [appended]. intros [= <-]. split.
    + now apply newDescriptors_acceptable.
    + rewrite newDescriptors_length. apply Nat.ltb_ge in Hover. lia.
Qed.

Lemma removeFile_sub (fileId : float) (l : list FileDescriptor) :
  Forall acceptable l -> Forall acceptable (removeFile fileId l).
Proof.
  intros H. apply Forall_forall. intros d Hd.
  apply filter_In in Hd. rewrite Forall_forall in H. now apply H.
Qed.

Lemma removeFile_length (fileId : float) (l : list FileDescriptor) :
  length (removeFile fileId l) <= length l.
Proof. apply filter_length_le. Qed.

Lemma intakeStep_invariant (cur : list FileDescriptor) (e : IntakeEvent) :
  Forall acceptable cur /\ length cur <= MAX_FILES_COUNT ->
  Forall acceptable (intakeStep cur e) /\
  length (intakeStep cur e) <= MAX_FILES_COUNT.
Proof.
  intros [Hacc Hlen].
  assert (Hproc : forall h files,
    Forall acceptable (setUploadedFiles_append cur (processFiles h cur files)) /\
    length (setUploadedFiles_append cur (processFiles h cur files)) <= MAX_FILES_COUNT).
  { intros h files. unfold setUploadedFiles_append.
    destruct (appended (processFiles h cur files)) as [newFiles |] eqn:Happ.
    - apply processFiles_appended in Happ as [Hn Hl]. split.
      + apply Forall_app; split; assumption.
      + now rewrite length_app.
    - split; assumption. }
  destruct e as [h files | h files | fileId]; simpl.
  - apply Hproc.
  - apply Hproc.
  - split; [now apply removeFile_sub |].
    pose proof (removeFile_length fileId cur). lia.
Qed.

Lemma fold_intake_invariant (events : list IntakeEvent) :
  forall cur,
  Forall acceptable cur /\ length cur <= MAX_FILES_COUNT ->
  Forall acceptable (fold_left intakeStep events cur) /\
  length (fold_left intakeStep events cur) <= MAX_FILES_COUNT.
Proof.
  induction events as [| e events IH]; intros cur H; simpl.
  - exact H.
  - apply IH. now apply intakeStep_invariant.
Qed.

(** C1. After any sequence of picker batches, drop batches and removals,
    starting from the empty collection, every accepted descriptor has a
    declared MIME type in the allow-list and a size of at most 10 MiB
    (10485760 bytes), and the collection holds at most 10 descriptors. *)
Theorem intake_invariant (events : list IntakeEvent) :
  Forall (fun d =>
            In (type d)
               [ "application/pdf"; "text/markdown"; "text/x-markdown";
                 "application/vnd.openxmlformats-officedocument.wordprocessingml.document" ] /\
            (size d <= 10485760)%N /\
            type d = file_type (file d) /\ size d = file_size (file d))
         (intakeRun events) /\
  length (intakeRun events) <= 10.
Proof.
  unfold intakeRun.
  apply (fold_intake_invariant events []).
  split; [constructor | simpl; unfold MAX_FILES_COUNT; lia].
Qed.

(** C7. A batch whose files that pass validation would bring the count
    above 10: below 10, exactly [10 - count] of them are accepted, the
    first ones in the batch's order, appended after the current entries;
    at 10, nothing is accepted, the collection is unchanged and the
    "maximum already uploaded" alert is the last thing raised. *)
Theorem processFiles_over_capacity (h : IdSource) (cur : list FileDescriptor)
    (files : list File) :
  length cur + length (filter isValidFile files) > 10 ->
  let out := processFiles h cur files in
  (length cur < 10 ->
   exists newFiles,
     appended out = Some newFiles /\
     setUploadedFiles_append cur out = cur ++ newFiles /\
     length newFiles = 10 - length cur /\
     map file newFiles = firstn (10 - length cur) (filter isValidFile files) /\
     exists pre, alerts out = pre ++ [AlertOnlyMore (10 - Z.of_nat (length cur))])
  /\
  (length cur = 10 ->
   appended out = None /\
   setUploadedFiles_append cur out = cur /\
   exists pre, alerts out = pre ++ [AlertMaxReached]).
Proof.
  intros Hover out. subst out.
  unfold setUploadedFiles_append, processFiles.
  set (validFiles := filter isValidFile files) in *.
  set (rejected := if negb (length validFiles =? length files) then _ else _).
  destruct (length validFiles =? 0) eqn:Hz.
  { apply Nat.eqb_eq in Hz. split; intros Hc; lia. }
  replace (MAX_FILES_COUNT <? length cur + length validFiles) with true
    by (symmetry; apply Nat.ltb_lt; unfold MAX_FILES_COUNT; lia).
  change (Z.of_nat MAX_FILES_COUNT) with 10%Z.
  remember (10 - Z.of_nat (length cur))%Z as canAdd eqn:HcanAdd.
  split; intros Hc.
  - replace (0 <? canAdd)%Z with true by (symmetry; apply Z.ltb_lt; lia).
    cbn [appended alerts].
    replace (Z.to_nat canAdd) with (10 - length cur) by lia.
    eexists. split; [reflexivity |]. split; [reflexivity |].
    split; [| split].
    + rewrite newDescriptors_length, length_firstn. lia.
    + apply newDescriptors_files.
    + exists rejected. reflexivity.
  - replace (0 <? canAdd)%Z with false by (symmetry; apply Z.ltb_ge; lia).
    cbn [appended alerts]. split; [reflexivity |]. split; [reflexivity |].
    exists rejected. reflexivity.
Qed.

Lemma processFiles_over_capacity_witness :
  length threeHeld + length (filter isValidFile twelveOffered) > 10 /\
  length threeHeld < 10 /\
  exists newFiles,
    appended (processFiles steadyIds threeHeld twelveOffered) = Some newFiles /\
    map file newFiles =
      [ note "d1.md"; note "d2.md"; note "d3.md"; note "d4.md";
        note "d5.md"; note "d6.md"; note "d7.md" ].
Proof.
  assert (Hover : length threeHeld + length (filter isValidFile twelveOffered) > 10)
    by (vm_compute; lia).
  assert (Hlt : length threeHeld < 10) by (vm_compute; lia).
  split; [exact Hover |]. split; [exact Hlt |].
  destruct (processFiles_over_capacity steadyIds threeHeld twelveOffered Hover)
    as [Hbelow _].
  destruct (Hbelow Hlt) as [newFiles [Happ [_ [_ [Hfiles _]]]]].
  exists newFiles. split; [exact Happ | exact Hfiles].
Defined.

Lemma removeFile_In (fileId : float) (l : list FileDescriptor) (d : FileDescriptor) :
  In d (removeFile fileId l) <-> In d l /\ PrimFloat.eqb (id d) fileId = false.
Proof.
  unfold removeFile. rewrite filter_In, negb_true_iff. reflexivity.
Qed.

(** With pairwise different ids, removing the id of the entry at index
    [length before] takes out that entry and nothing else. *)
Lemma removeFile_distinct (before after : list FileDescriptor) (d : FileDescriptor) :
  PrimFloat.eqb (id d) (id d) = true ->
  Forall (fun x => PrimFloat.eqb (id x) (id d) = false) (before ++ after) ->
  removeFile (id d) (before ++ d :: after) = before ++ after.
Proof.
  intros Hrefl Hother. apply Forall_app in Hother as [Hb Ha].
  unfold removeFile. rewrite filter_app. cbn [filter]. rewrite Hrefl. cbn [negb].
  f_equal; apply forallb_filter_id; apply forallb_forall; intros x Hx;
    apply negb_true_iff; [rewrite Forall_forall in Hb; now apply Hb
                         | rewrite Forall_forall in Ha; now apply Ha].
Qed.

(** C9. Two files dropped together whose ids are taken in the same
    millisecond, with random draws 0.5 and 0.5 + 2^-20: the draws differ,
    the sums round to the same number, both descriptors carry the id
    1700000000000.5, and removing that id empties the collection. *)
Theorem ids_collide_within_one_millisecond :
  let dropped := FilesDropped sameInstant [note "a.md"; note "b.md"] in
  PrimFloat.eqb (Math_random sameInstant 0) (Math_random sameInstant 1) = false /\
  map name (intakeRun [dropped]) = ["a.md"; "b.md"] /\
  map id (intakeRun [dropped]) = [1700000000000.5%float; 1700000000000.5%float] /\
  intakeRun [dropped; RemoveClicked 1700000000000.5%float] = [].
Proof. vm_compute. repeat split; reflexivity. Qed.

(** ** Content extraction *)

Lemma substring_prefix_length (n : nat) :
  forall s, n <= String.length s ->
  String.length (substring 0 n s) = n /\ prefix (substring 0 n s) s = true.
Proof.
  induction n as [| n IH]; intros s Hn.
  - destruct s; simpl; split; reflexivity.
  - destruct s as [| c s]; simpl in Hn; [lia |].
    destruct (IH s) as [Hl Hp]; [lia |].
    cbn [substring String.length prefix]. rewrite Hl, Hp.
    destruct (ascii_dec c c) as [_ | Hne]; [| congruence].
    split; reflexivity.
Qed.

(** C4, as stated, fails at exactly 50,000 code units: the text comes back
    unchanged, with no marker. *)
Lemma threshold_length_not_truncated :
  ~ (forall (rd : File -> ReadEvent) (f : File) (content : string),
       extractorBranch (file_type f) = TextBranch ->
       rd f = onload content ->
       ((N.of_nat (String.length content) < 50000)%N ->
        readFileContent rd f = Resolved content) /\
       ((50000 <= N.of_nat (String.length content))%N ->
        readFileContent rd f =
          Resolved (substring 0 (N.to_nat 50000) content ++ TRUNCATION_MARKER)%string)).
Proof.
  intros H.
  destruct (H (fun _ => onload atThreshold) (note "a.md") atThreshold
              eq_refl eq_refl) as [_ Hge].
  assert (Hlen : (50000 <= N.of_nat (String.length atThreshold))%N)
    by (vm_compute; discriminate).
  specialize (Hge Hlen).
  apply (f_equal (fun p => match p with
                           | Resolved s => N.of_nat (String.length s)
                           | Rejected _ => 0%N
                           end)) in Hge.
  vm_compute in Hge. discriminate.
Qed.

(** C4, amended. For a file taken by the text arm whose read succeeds:
    a text of at most 50,000 code units is returned as it is; a longer one
    is cut to its first 50,000 code units, followed by two line feeds and
    "[Content truncated due to length]". *)
Theorem text_extraction_truncates_above_threshold
    (rd : File -> ReadEvent) (f : File) (content : string) :
  extractorBranch (file_type f) = TextBranch ->
  rd f = onload content ->
  ((N.of_nat (String.length content) <= 50000)%N ->
   readFileContent rd f = Resolved content) /\
  ((50000 < N.of_nat (String.length content))%N ->
   readFileContent rd f =
     Resolved (substring 0 (N.to_nat 50000) content ++ TRUNCATION_MARKER)%string /\
   N.of_nat (String.length (substring 0 (N.to_nat 50000) content)) = 50000%N /\
   prefix (substring 0 (N.to_nat 50000) content) content = true).
Proof.
  intros Hbranch Hread. unfold readFileContent, limitContent.
  rewrite Hbranch, Hread. split; intros Hlen.
  - replace (50000 <? N.of_nat (String.length content))%N with false
      by (symmetry; apply N.ltb_ge; exact Hlen).
    reflexivity.
  - replace (50000 <? N.of_nat (String.length content))%N with true
      by (symmetry; apply N.ltb_lt; exact Hlen).
    split; [reflexivity |].
    destruct (substring_prefix_length (N.to_nat 50000) content) as [Hl Hp]; [lia |].
    rewrite Hl, N2Nat.id. split; [reflexivity | exact Hp].
Qed.

Lemma text_extraction_truncates_above_threshold_witness :
  extractorBranch (file_type (note "a.md")) = TextBranch /\
  (fun _ : File => onload "# Notes") (note "a.md") = onload "# Notes" /\
  (N.of_nat (String.length "# Notes") <= 50000)%N /\
  readFileContent (fun _ => onload "# Notes") (note "a.md") = Resolved "# Notes".
Proof.
  assert (Hlen : (N.of_nat (String.length "# Notes") <= 50000)%N)
    by (vm_compute; discriminate).
  split; [reflexivity |]. split; [reflexivity |]. split; [exact Hlen |].
  exact (proj1 (text_extraction_truncates_above_threshold
                  (fun _ => onload "# Notes") (note "a.md") "# Notes"
                  eq_refl eq_refl) Hlen).
Defined.

(** C10, as stated, fails when the read of a markdown file fails: the
    promise is rejected, not resolved. *)
Lemma failed_read_rejects :
  ~ (forall (rd : File -> ReadEvent) (f : File),
       In (file_type f) VALID_FILE_TYPES ->
       (exists content, readFileContent rd f = Resolved (limitContent content)) \/
       readFileContent rd f = Resolved (pdfPlaceholder (file_name f)) \/
       readFileContent rd f = Resolved (docxPlaceholder (file_name f))).
Proof.
  intros H.
  destruct (H (fun _ => onerror) (note "a.md")) as [[content Hc] | [Hc | Hc]];
    [simpl; tauto | discriminate Hc ..].
Qed.

(** C10, amended. A file whose type is in the allow-list never reaches
    the "[Unsupported file type: ...]" arm.  A PDF resolves to the PDF
    placeholder and a DOCX to the DOCX placeholder, whatever the reader
    does; a markdown file resolves to its (possibly truncated) text when
    the read succeeds and is rejected with "Failed to read file" when the
    read fails. *)
Theorem allowed_types_never_unsupported (rd : File -> ReadEvent) (f : File) :
  In (file_type f) VALID_FILE_TYPES ->
  extractorBranch (file_type f) <> UnsupportedBranch /\
  ((file_type f = "application/pdf" /\
    readFileContent rd f = Resolved (pdfPlaceholder (file_name f))) \/
   (file_type f =
      "application/vnd.openxmlformats-officedocument.wordprocessingml.document" /\
    readFileContent rd f = Resolved (docxPlaceholder (file_name f))) \/
   ((file_type f = "text/markdown" \/ file_type f = "text/x-markdown") /\
    readFileContent rd f =
      match rd f with
      | onload content => Resolved (limitContent content)
      | onerror => Rejected (mkError "Failed to read file")
      end)).
Proof.
  unfold readFileContent.
  intros [Ht | [Ht | [Ht | [Ht | []]]]]; rewrite <- Ht;
    (split; [vm_compute; discriminate |]).
  - left. split; reflexivity.
  - right. right. split; [left; reflexivity |].
    change (extractorBranch "text/markdown") with TextBranch. reflexivity.
  - right. right. split; [right; reflexivity |].
    change (extractorBranch "text/x-markdown") with TextBranch. reflexivity.
  - right. left. split; reflexivity.
Qed.

Lemma allowed_types_never_unsupported_witness :
  In (file_type (note "a.md")) VALID_FILE_TYPES /\
  extractorBranch (file_type (note "a.md")) <> UnsupportedBranch.
Proof.
  assert (Hin : In (file_type (note "a.md")) VALID_FILE_TYPES) by (simpl; tauto).
  split; [exact Hin |].
  exact (proj1 (allowed_types_never_unsupported (fun _ => onerror) (note "a.md") Hin)).
Defined.

(** ** Request composition *)

Lemma sendAndStore_network (h : Host) (r : Request) (w : World) :
  network (snd (sendAndStore h r w)) = network w ++ [r].
Proof.
  unfold sendAndStore. run_effects.
  cbn. destruct (fetch h r) as [e | [|] status [data | e]]; reflexivity.
Qed.

(** What [generateBRD] leaves on the network when its [try] body is
    [body]: the handler and the [finally] block send nothing. *)
Lemma generateBRD_frame_network (body : Eff unit) (w : World) :
  (forall w0, fst (body w0) <> OutOfFuel) ->
  network
    (snd ((setIsGenerating true ;; setError None ;;
           try_catch_finally body
             (fun err => setError (Some (js_or (message err) "Failed to generate BRD")))
             (setIsGenerating false)) w)) =
  network (snd (body
    (snd ((setIsGenerating true ;; setError None) w)))).
Proof.
  intros Hfuel.
  run_effects. cbn.
  match goal with |- context [body ?w0] =>
    specialize (Hfuel w0); destruct (body w0) as [[[] | e |] w1] end;
    cbn in *; congruence.
Qed.

Lemma sendAndStore_terminates (h : Host) (r : Request) (w : World) :
  fst (sendAndStore h r w) <> OutOfFuel.
Proof.
  unfold sendAndStore. run_effects.
  cbn. destruct (fetch h r) as [e | [|] status [data | e]]; discriminate.
Qed.

(** C5, as stated, fails: with an empty description the additional
    information is sent when there is some, so no single fallback string
    accounts for what is sent. *)
Lemma additional_info_precedes_fallback :
  ~ (exists fallback : string,
       forall (h : Host) (snap : Dashboard) (w : World),
         uploadedFiles snap = [] ->
         network (snd (generateBRD h snap w)) =
         network w ++
           [post "/api/generate_brd_from_input"
              {| Wire.project_description :=
                   js_or (projectDescription snap) fallback;
                 Wire.uploaded_files := None;
                 Wire.model := "gemini-2.0-flash" |}]).
Proof.
  intros [fallback H].
  pose proof (H obligingHost (filledIn "" "" []) (pageLoaded (filledIn "" "" []))
                eq_refl) as H1.
  pose proof (H obligingHost (filledIn "" "Budget is fixed" [])
                (pageLoaded (filledIn "" "Budget is fixed" [])) eq_refl) as H2.
  vm_compute in H1, H2.
  injection H1 as <-. discriminate H2.
Qed.

(** C5, amended. With no file attached, exactly one request is sent, to
    the generate-from-input endpoint; its [project_description] is the
    description when that is not empty, else the additional information
    when that is not empty, else "Project requirements". *)
Theorem text_only_request (h : Host) (snap : Dashboard) (w : World) :
  uploadedFiles snap = [] ->
  network (snd (generateBRD h snap w)) =
  network w ++
    [post "/api/generate_brd_from_input"
       {| Wire.project_description :=
            js_or (projectDescription snap)
              (js_or (additionalInfo snap) "Project requirements");
          Wire.uploaded_files := None;
          Wire.model := "gemini-2.0-flash" |}].
Proof.
  intros Hnone. unfold generateBRD. rewrite Hnone. cbn [length Nat.ltb Nat.leb].
  rewrite generateBRD_frame_network by (intros; apply sendAndStore_terminates).
  rewrite sendAndStore_network. reflexivity.
Qed.

Lemma text_only_request_witness :
  uploadedFiles (filledIn "" "Budget is fixed" []) = [] /\
  network (snd (generateBRD obligingHost (filledIn "" "Budget is fixed" [])
                  (pageLoaded (filledIn "" "Budget is fixed" [])))) =
  [post "/api/generate_brd_from_input"
     {| Wire.project_description := "Budget is fixed";
        Wire.uploaded_files := None;
        Wire.model := "gemini-2.0-flash" |}].
Proof.
  split; [reflexivity |].
  exact (text_only_request obligingHost (filledIn "" "Budget is fixed" [])
           (pageLoaded (filledIn "" "Budget is fixed" [])) eq_refl).
Defined.

(** C6, as stated, fails: on a heuristic match the description field is
    not consulted at all, so the two cases differ in more than the
    default text. *)
Lemma heuristic_match_ignores_description :
  ~ (exists improveDefault plainDefault : string,
       forall (h : Host) (snap : Dashboard) (w : World)
              (fileContents : list Wire.ExtractedContent),
         uploadedFiles snap <> [] ->
         Promise_all (map (extractOne h) (uploadedFiles snap)) = Resolved fileContents ->
         network (snd (generateBRD h snap w)) =
         network w ++
           [post "/api/generate_brd_with_files"
              {| Wire.project_description :=
                   js_or (projectDescription snap)
                     (js_or (additionalInfo snap)
                        (if existsb looksLikeBRD (uploadedFiles snap)
                         then improveDefault else plainDefault));
                 Wire.uploaded_files := Some fileContents;
                 Wire.model := "gemini-2.0-flash" |}]).
Proof.
  intros [improveDefault [plainDefault H]].
  pose (snap := filledIn "Payroll portal" "" [note "old_brd.md"]).
  assert (Hfiles : uploadedFiles snap <> []) by (vm_compute; discriminate).
  specialize (H obligingHost snap (pageLoaded snap) _ Hfiles eq_refl).
  vm_compute in H. discriminate H.
Qed.

(** C6, amended. With at least one file attached and every extraction
    resolved, exactly one request is sent, to the generate-with-files
    endpoint, with the extracted contents and the model name, whether or
    not a file name matches the heuristic.  On a match the description sent
    is the additional information, or "Improve existing BRD document" when
    that is empty, and the description field is not used; without a match
    it is the description, else the additional information, else "Project
    requirements from uploaded files". *)
Theorem files_request (h : Host) (snap : Dashboard) (w : World)
    (fileContents : list Wire.ExtractedContent) :
  uploadedFiles snap <> [] ->
  Promise_all (map (extractOne h) (uploadedFiles snap)) = Resolved fileContents ->
  network (snd (generateBRD h snap w)) =
  network w ++
    [post "/api/generate_brd_with_files"
       {| Wire.project_description :=
            if existsb looksLikeBRD (uploadedFiles snap)
            then js_or (additionalInfo snap) "Improve existing BRD document"
            else js_or (projectDescription snap)
                   (js_or (additionalInfo snap)
                      "Project requirements from uploaded files");
          Wire.uploaded_files := Some fileContents;
          Wire.model := "gemini-2.0-flash" |}].
Proof.
  intros Hfiles Hall. unfold generateBRD.
  replace (0 <? length (uploadedFiles snap)) with true
    by (destruct (uploadedFiles snap); [congruence | reflexivity]).
  rewrite Hall.
  rewrite generateBRD_frame_network.
  - run_effects. cbn [fst snd].
    destruct (existsb looksLikeBRD (uploadedFiles snap));
      rewrite sendAndStore_network; reflexivity.
  - intros w0.
    run_effects. cbn [fst snd].
    destruct (existsb looksLikeBRD (uploadedFiles snap));
      apply sendAndStore_terminates.
Qed.

Lemma files_request_witness :
  uploadedFiles (filledIn "Payroll portal" "" [note "old_brd.md"]) <> [] /\
  Promise_all (map (extractOne obligingHost)
                 (uploadedFiles (filledIn "Payroll portal" "" [note "old_brd.md"]))) =
    Resolved [ {| Wire.filename := "old_brd.md"; Wire.content := "# Notes";
                  Wire.type := "text/markdown" |} ] /\
  network (snd (generateBRD obligingHost
                  (filledIn "Payroll portal" "" [note "old_brd.md"])
                  (pageLoaded (filledIn "Payroll portal" "" [note "old_brd.md"])))) =
  [post "/api/generate_brd_with_files"
     {| Wire.project_description := "Improve existing BRD document";
        Wire.uploaded_files :=
          Some [ {| Wire.filename := "old_brd.md"; Wire.content := "# Notes";
                    Wire.type := "text/markdown" |} ];
        Wire.model := "gemini-2.0-flash" |}].
Proof.
  assert (Hfiles : uploadedFiles (filledIn "Payroll portal" "" [note "old_brd.md"]) <> [])
    by (vm_compute; discriminate).
  split; [exact Hfiles |]. split; [reflexivity |].
  exact (files_request obligingHost
           (filledIn "Payroll portal" "" [note "old_brd.md"])
           (pageLoaded (filledIn "Payroll portal" "" [note "old_brd.md"]))
           _ Hfiles eq_refl).
Defined.

Lemma readFileContent_rejection (rd : File -> ReadEvent) (f : File) (e : Error) :
  readFileContent rd f = Rejected e -> e = mkError "Failed to read file".
Proof.
  unfold readFileContent.
  destruct (extractorBranch (file_type f)); try discriminate.
  destruct (rd f); [discriminate | now intros [= <-]].
Qed.

Lemma extractOne_rejection (h : Host) (d : FileDescriptor) (e : Error) :
  readFileContent (readAsText h) (file d) = Rejected e ->
  extractOne h d = Rejected (mkError "Failed to read file").
Proof.
  intros H. unfold extractOne. rewrite H.
  now rewrite (readFileContent_rejection _ _ _ H).
Qed.

Lemma Promise_all_rejection {A} (ps : list (Promise A)) (e : Error) :
  In (Rejected e) ps ->
  (forall e', In (Rejected e') ps -> e' = e) ->
  Promise_all ps = Rejected e.
Proof.
  induction ps as [| p ps IH]; intros Hin Hsame; [contradiction |].
  destruct p as [a | e0]; cbn [Promise_all].
  - rewrite IH; [reflexivity | | intros e' He'; apply Hsame; now right].
    destruct Hin as [Hin | Hin]; [discriminate | exact Hin].
  - f_equal. apply Hsame. now left.
Qed.

Lemma extraction_join_rejection (h : Host) (l : list FileDescriptor) :
  (exists d e, In d l /\ readFileContent (readAsText h) (file d) = Rejected e) ->
  Promise_all (map (extractOne h) l) = Rejected (mkError "Failed to read file").
Proof.
  intros [d [e [Hin Hrej]]]. apply Promise_all_rejection.
  - apply in_map_iff. exists d. split; [now apply (extractOne_rejection h d e) | exact Hin].
  - intros e' He'. apply in_map_iff in He' as [d' [Hd' _]].
    unfold extractOne in Hd'.
    destruct (readFileContent (readAsText h) (file d')) as [c | e0] eqn:Hr;
      [discriminate |].
    injection Hd' as <-. now apply (readFileContent_rejection _ _ _ Hr).
Qed.

(** C8. When the read of any attached file fails, the submission ends
    without a request having been sent and without a new result; the
    error state is "Failed to read file". *)
Theorem failed_extraction_aborts_submission (h : Host) (snap : Dashboard) (w : World) :
  (exists d e, In d (uploadedFiles snap) /\
               readFileContent (readAsText h) (file d) = Rejected e) ->
  fst (generateBRD h snap w) = Returned tt /\
  network (snd (generateBRD h snap w)) = network w /\
  result (ui (snd (generateBRD h snap w))) = result (ui w) /\
  error (ui (snd (generateBRD h snap w))) = Some "Failed to read file" /\
  isGenerating (ui (snd (generateBRD h snap w))) = false.
Proof.
  intros Hfail.
  assert (Hfiles : (0 <? length (uploadedFiles snap)) = true).
  { destruct Hfail as [d [_ [Hin _]]].
    destruct (uploadedFiles snap); [contradiction | reflexivity]. }
  apply extraction_join_rejection in Hfail.
  unfold generateBRD. rewrite Hfiles, Hfail.
  repeat split; reflexivity.
Qed.

Lemma failed_extraction_aborts_submission_witness :
  (exists d e, In d (uploadedFiles (filledIn "Payroll portal" "" [note "a.md"])) /\
               readFileContent (readAsText unreadableHost) (file d) = Rejected e) /\
  network (snd (generateBRD unreadableHost
                  (filledIn "Payroll portal" "" [note "a.md"])
                  (pageLoaded (filledIn "Payroll portal" "" [note "a.md"])))) = [].
Proof.
  assert (Hfail : exists d e,
             In d (uploadedFiles (filledIn "Payroll portal" "" [note "a.md"])) /\
             readFileContent (readAsText unreadableHost) (file d) = Rejected e).
  { eexists. eexists. split; [left; reflexivity | reflexivity]. }
  split; [exact Hfail |].
  exact (proj1 (proj2 (failed_extraction_aborts_submission unreadableHost
                         (filledIn "Payroll portal" "" [note "a.md"])
                         (pageLoaded (filledIn "Payroll portal" "" [note "a.md"]))
                         Hfail))).
Defined.

(** ** Paginated PDF export *)

Section PageLoop.

Variable h : Host.
Variable canvas : Canvas.
Variables imgWidth pageHeight imgHeight : float.

Lemma addImage_body (pdf : Pdf) (pos : float) (w : World) :
  snd (addImage h pdf canvas pos imgWidth imgHeight w) = w.
Proof. unfold addImage. destruct (addImage_throws h canvas pos); reflexivity. Qed.

Lemma additionalPages_body (fuel : nat) :
  forall (heightLeft : float) (pdf : Pdf) (w : World),
  snd (additionalPages h fuel canvas imgWidth pageHeight imgHeight heightLeft pdf w) = w.
Proof.
  induction fuel as [| fuel IH]; intros heightLeft pdf w; cbn [additionalPages];
    destruct (0 <=? heightLeft)%float; try reflexivity.
  unfold bind.
  pose proof (addImage_body (addPage pdf) (heightLeft - imgHeight)%float w) as Hw.
  destruct (addImage h (addPage pdf) canvas (heightLeft - imgHeight)%float
              imgWidth imgHeight w) as [[pdf' | e |] w'];
    cbn [snd] in Hw; subst w'; [apply IH | reflexivity | reflexivity].
Qed.

(** Fuel only bounds the loop: once a run ends without exhausting it,
    more fuel gives the same run. *)
Lemma additionalPages_more_fuel (fuel : nat) :
  forall (heightLeft : float) (pdf : Pdf) (w : World),
  fst (additionalPages h fuel canvas imgWidth pageHeight imgHeight heightLeft pdf w)
    <> OutOfFuel ->
  additionalPages h (S fuel) canvas imgWidth pageHeight imgHeight heightLeft pdf w =
  additionalPages h fuel canvas imgWidth pageHeight imgHeight heightLeft pdf w.
Proof.
  induction fuel as [| fuel IH]; intros heightLeft pdf w Hend.
  - cbn [additionalPages] in *.
    destruct (0 <=? heightLeft)%float; [now elim Hend | reflexivity].
  - change (additionalPages h (S (S fuel)) canvas imgWidth pageHeight imgHeight
              heightLeft pdf w)
      with ((if (0 <=? heightLeft)%float
             then pdf' <- addImage h (addPage pdf) canvas
                            (heightLeft - imgHeight)%float imgWidth imgHeight ;;
                  additionalPages h (S fuel) canvas imgWidth pageHeight imgHeight
                    (heightLeft - pageHeight)%float pdf'
             else ret pdf) w).
    change (additionalPages h (S fuel) canvas imgWidth pageHeight imgHeight
              heightLeft pdf w)
      with ((if (0 <=? heightLeft)%float
             then pdf' <- addImage h (addPage pdf) canvas
                            (heightLeft - imgHeight)%float imgWidth imgHeight ;;
                  additionalPages h fuel canvas imgWidth pageHeight imgHeight
                    (heightLeft - pageHeight)%float pdf'
             else ret pdf) w) in Hend |- *.
    destruct (0 <=? heightLeft)%float; [| reflexivity].
    unfold bind in *.
    destruct (addImage h (addPage pdf) canvas (heightLeft - imgHeight)%float
                imgWidth imgHeight w)
      as [[pdf' | e |] w']; [now apply IH | reflexivity | reflexivity].
Qed.

Lemma additionalPages_fuel_mono (fuel extra : nat) (heightLeft : float)
    (pdf : Pdf) (w : World) :
  fst (additionalPages h fuel canvas imgWidth pageHeight imgHeight heightLeft pdf w)
    <> OutOfFuel ->
  additionalPages h (extra + fuel) canvas imgWidth pageHeight imgHeight heightLeft pdf w =
  additionalPages h fuel canvas imgWidth pageHeight imgHeight heightLeft pdf w.
Proof.
  intros Hend. induction extra as [| extra IH]; [reflexivity |].
  cbn [Nat.add]. rewrite additionalPages_more_fuel; [exact IH |].
  now rewrite IH.
Qed.

End PageLoop.

(** Building and saving the document does not touch [document.body]. *)
Lemma paginate_body (h : Host) (fuel : nat) (c : Canvas) (filename : string) (w : World) :
  document_body (snd (paginate h fuel c filename w)) = document_body w.
Proof.
  unfold paginate, bind.
  match goal with |- context [addImage h ?pdf c ?pos ?iw ?ih w] =>
    pose proof (addImage_body h c iw ih pdf pos w) as Hw;
    destruct (addImage h pdf c pos iw ih w) as [[pdf' | e0 |] w'] end;
    cbn [snd] in Hw; subst w'; try reflexivity.
  match goal with |- context [additionalPages h fuel c ?iw ?ph ?ih ?left ?pdf w] =>
    pose proof (additionalPages_body h c iw ph ih fuel left pdf w) as Hw;
    destruct (additionalPages h fuel c iw ph ih left pdf w) as [[pdf'' | e0 |] w'] end;
    cbn [snd] in Hw; subst w'; try reflexivity.
  unfold save. destruct (save_throws h filename); reflexivity.
Qed.

(** Heights that are not a multiple of the page height: 262.5 mm fits on
    one page, 295.05 mm takes two. *)
Lemma pages_for_partial_heights :
  map (fun c =>
         match paginate obligingHost 30 c "x.pdf" (pageLoaded generated) with
         | (Returned tt, w) => map (fun s => length (pages (snd s))) (saved w)
         | _ => []
         end)
      [ {| width := 2400; height := 3000 |}; {| width := 2400; height := 3372 |} ]
  = [[1]; [2]].
Proof. vm_compute. reflexivity. Qed.

(** When the rasteriser resolves, the container is detached before the
    document is built, so it is gone whatever happens afterwards. *)
Lemma resolved_rasterisation_detaches (h : Host) (fuel : nat) (snap : Dashboard)
    (w : World) (r : GenerationResult) (html : string) (c : Canvas) :
  result snap = Some r ->
  marked h (brd_markdown r) = Normal html ->
  (forall n, html2canvas h n = Resolved c) ->
  Forall (fun n => node_id n < created w) (document_body w) ->
  document_body (snd (downloadPDF h fuel snap w)) = document_body w.
Proof.
  intros Hres Hmd Hcanvas Hfresh.
  unfold downloadPDF. rewrite Hres.
  run_effects.
  rewrite Hmd. cbn [fst snd]. rewrite Hcanvas. cbn [fst snd node_id].
  match goal with |- context [paginate h fuel c ?f ?w0] =>
    pose proof (paginate_body h fuel c f w0) as Hb;
    destruct (paginate h fuel c f w0) as [[[] | e |] w1] end;
    cbn [snd document_body] in Hb |- *; rewrite Hb;
    rewrite filter_app; cbn [filter node_id]; rewrite Nat.eqb_refl; cbn [negb];
    rewrite app_nil_r; apply forallb_filter_id; apply forallb_forall;
    intros n Hn; rewrite Forall_forall in Hfresh; specialize (Hfresh n Hn);
    apply negb_true_iff, Nat.eqb_neq; cbn [created]; lia.
Qed.

(** C2. When the rasteriser rejects, [downloadPDF] catches the error,
    raises the alert and returns with the temporary container still the
    last child of [document.body]: the [removeChild] call after the
    [await] is skipped, and neither [catch] nor [finally] removes it. *)
Theorem failed_rasterisation_leaves_container (h : Host) (fuel : nat)
    (snap : Dashboard) (w : World) (r : GenerationResult) (html : string)
    (e : Error) :
  result snap = Some r ->
  marked h (brd_markdown r) = Normal html ->
  (forall n, html2canvas h n = Rejected e) ->
  fst (downloadPDF h fuel snap w) = Returned tt /\
  (exists tempContainer,
     tagName tempContainer = "div" /\
     style tempContainer = CONTAINER_STYLE /\
     document_body (snd (downloadPDF h fuel snap w)) =
       document_body w ++ [tempContainer]) /\
  alerted (snd (downloadPDF h fuel snap w)) = alerted w ++ [AlertPdfError] /\
  isGeneratingPDF (ui (snd (downloadPDF h fuel snap w))) = false.
Proof.
  intros Hres Hmd Hcanvas.
  unfold downloadPDF. rewrite Hres.
  run_effects.
  rewrite Hmd. cbn [fst snd]. rewrite Hcanvas. cbn.
  split; [reflexivity |]. split; [| split; reflexivity].
  eexists. split; [| split]; [| | reflexivity]; reflexivity.
Qed.

Lemma failed_rasterisation_leaves_container_witness :
  result generated = Some sampleResult /\
  (forall n, html2canvas failingRasteriser n = Rejected (mkError "Unable to render")) /\
  length (document_body (snd (downloadPDF failingRasteriser 30 generated
                                (pageLoaded generated)))) = 1.
Proof.
  split; [reflexivity |]. split; [intros n; reflexivity |].
  destruct (failed_rasterisation_leaves_container failingRasteriser 30 generated
              (pageLoaded generated) sampleResult _ _ eq_refl eq_refl
              (fun n => eq_refl))
    as [_ [[tempContainer [_ [_ Hbody]]] _]].
  rewrite Hbody. reflexivity.
Defined.

(** C3. A canvas of 2400 by 70800 pixels gives an image height of
    6195 mm, exactly 21 pages of 295 mm.  The saved document has 22
    pages: after the 21st the remaining height is 0, the loop condition
    [heightLeft >= 0] still holds, and a page is added on which the image
    is placed at -6195 mm, entirely above the page. *)
Theorem exact_multiple_gets_extra_page :
  (70800 * 210 / 2400 = 6195)%float /\
  (21 * 295 = 6195)%float /\
  exists pdf,
    downloadPDF tallRasteriser 30 generated (pageLoaded generated) =
      (Returned tt,
       {| ui := generated; network := []; document_body := []; alerted := [];
          saved := [("Payroll_Portal_BRD.pdf", pdf)]; created := 1 |}) /\
    length (pages pdf) = 22 /\
    nth_error (pages pdf) 20 =
      Some [ {| position := (-5900)%float; drawnWidth := 210%float;
                drawnHeight := 6195%float |} ] /\
    nth_error (pages pdf) 21 =
      Some [ {| position := (-6195)%float; drawnWidth := 210%float;
                drawnHeight := 6195%float |} ].
Proof.
  split; [reflexivity |]. split; [reflexivity |].
  eexists. split; [vm_compute; reflexivity |].
  split; [reflexivity |]. split; reflexivity.
Qed.

(* ================================================================= *)
(** * Further properties of the code *)

(** ** Intake *)

Lemma processFiles_shape (h : IdSource) (cur : list FileDescriptor) (files : list File) :
  let validFiles := filter isValidFile files in
  let rejected :=
    if negb (length validFiles =? length files)
    then [AlertRejected (Z.of_nat (length files) - Z.of_nat (length validFiles))]
    else [] in
  let canAdd := (Z.of_nat MAX_FILES_COUNT - Z.of_nat (length cur))%Z in
  processFiles h cur files =
  if length validFiles =? 0 then
    {| alerts := rejected; appended := None |}
  else if MAX_FILES_COUNT <? length cur + length validFiles then
    if (0 <? canAdd)%Z then
      {| alerts := rejected ++ [AlertOnlyMore canAdd];
         appended := Some (newDescriptors h 0 (firstn (Z.to_nat canAdd) validFiles)) |}
    else {| alerts := rejected ++ [AlertMaxReached]; appended := None |}
  else {| alerts := rejected; appended := Some (newDescriptors h 0 validFiles) |}.
Proof. reflexivity. Qed.

(** X1. Intake only appends: whatever the batch, the entries already held
    stay where they are, and what follows them wraps the first [k] files
    of the batch that pass validation, in batch order, for some [k]. *)
Theorem processFiles_only_appends (h : IdSource) (cur : list FileDescriptor)
    (files : list File) :
  exists k,
    setUploadedFiles_append cur (processFiles h cur files) =
    cur ++ newDescriptors h 0 (firstn k (filter isValidFile files)).
Proof.
  unfold setUploadedFiles_append. rewrite processFiles_shape. cbv zeta.
  set (validFiles := filter isValidFile files).
  destruct (length validFiles =? 0).
  { exists 0. cbn [appended firstn newDescriptors]. now rewrite app_nil_r. }
  destruct (MAX_FILES_COUNT <? length cur + length validFiles).
  - destruct (0 <? Z.of_nat MAX_FILES_COUNT - Z.of_nat (length cur))%Z.
    + eexists. reflexivity.
    + exists 0. cbn [appended firstn newDescriptors]. now rewrite app_nil_r.
  - exists (length validFiles). cbn [appended]. now rewrite firstn_all.
Qed.

(** X2. A batch that fits: when the files that pass validation do not
    bring the count above 10, every one of them is appended, in batch
    order, and the only alert that can appear is the rejection count. *)
Theorem processFiles_within_capacity (h : IdSource) (cur : list FileDescriptor)
    (files : list File) :
  length cur + length (filter isValidFile files) <= 10 ->
  setUploadedFiles_append cur (processFiles h cur files) =
    cur ++ newDescriptors h 0 (filter isValidFile files) /\
  map file (setUploadedFiles_append cur (processFiles h cur files)) =
    map file cur ++ filter isValidFile files /\
  forall a, In a (alerts (processFiles h cur files)) -> exists n, a = AlertRejected n.
Proof.
  intros Hfit.
  assert (Hstate : setUploadedFiles_append cur (processFiles h cur files) =
                   cur ++ newDescriptors h 0 (filter isValidFile files)).
  { unfold setUploadedFiles_append. rewrite processFiles_shape. cbv zeta.
    destruct (length (filter isValidFile files) =? 0) eqn:Hz.
    - apply Nat.eqb_eq, length_zero_iff_nil in Hz. rewrite Hz.
      cbn [appended newDescriptors]. now rewrite app_nil_r.
    - replace (MAX_FILES_COUNT <? length cur + length (filter isValidFile files))
        with false by (symmetry; apply Nat.ltb_ge; exact Hfit).
      reflexivity. }
  split; [exact Hstate |]. split.
  - rewrite Hstate, map_app, newDescriptors_files. reflexivity.
  - rewrite processFiles_shape. cbv zeta.
    replace (MAX_FILES_COUNT <? length cur + length (filter isValidFile files))
      with false by (symmetry; apply Nat.ltb_ge; exact Hfit).
    intros a Ha.
    assert (Hrej : In a (if negb (length (filter isValidFile files) =? length files)
                         then [AlertRejected (Z.of_nat (length files) -
                                              Z.of_nat (length (filter isValidFile files)))]
                         else [])).
    { destruct (length (filter isValidFile files) =? 0); exact Ha. }
    destruct (negb (length (filter isValidFile files) =? length files));
      [| contradiction].
    destruct Hrej as [<- | []]. eexists. reflexivity.
Qed.

Lemma processFiles_within_capacity_witness :
  length threeHeld + length (filter isValidFile [note "d.md"; note "e.md"]) <= 10 /\
  map file (setUploadedFiles_append threeHeld
              (processFiles steadyIds threeHeld [note "d.md"; note "e.md"])) =
  [ note "a.md"; note "b.md"; note "c.md"; note "d.md"; note "e.md" ].
Proof.
  assert (Hfit : length threeHeld +
                 length (filter isValidFile [note "d.md"; note "e.md"]) <= 10)
    by (vm_compute; lia).
  split; [exact Hfit |].
  exact (proj1 (proj2 (processFiles_within_capacity steadyIds threeHeld
                         [note "d.md"; note "e.md"] Hfit))).
Defined.

(** X3. The rejection alert carries the number of files of the batch that
    fail validation, and it is raised exactly when there is such a file. *)
Theorem rejection_alert_counts_invalid (h : IdSource) (cur : list FileDescriptor)
    (files : list File) (n : Z) :
  In (AlertRejected n) (alerts (processFiles h cur files)) <->
  (0 < n)%Z /\
  n = Z.of_nat (length (filter (fun f => negb (isValidFile f)) files)).
Proof.
  pose proof (filter_length isValidFile files) as Hsplit.
  rewrite processFiles_shape. cbv zeta.
  set (valid := length (filter isValidFile files)) in *.
  set (invalid := length (filter (fun f => negb (isValidFile f)) files)) in *.
  assert (Hrej : forall tail,
            (forall m, ~ In (AlertRejected m) tail) ->
            (In (AlertRejected n)
                ((if negb (valid =? length files)
                  then [AlertRejected (Z.of_nat (length files) - Z.of_nat valid)]
                  else []) ++ tail) <->
             (0 < n)%Z /\ n = Z.of_nat invalid)).
  { intros tail Htail. rewrite in_app_iff.
    destruct (valid =? length files) eqn:Heq; cbn [negb].
    - apply Nat.eqb_eq in Heq. split.
      + intros [[] | Hin]. now apply Htail in Hin.
      + intros [Hpos ->]. lia.
    - apply Nat.eqb_neq in Heq. split.
      + intros [[Hn | []] | Hin]; [| now apply Htail in Hin].
        injection Hn as <-. lia.
      + intros [_ ->]. left. left. f_equal. lia. }
  destruct (valid =? 0);
    [| destruct (MAX_FILES_COUNT <? length cur + valid);
       [destruct (0 <? Z.of_nat MAX_FILES_COUNT - Z.of_nat (length cur))%Z |]];
    cbn [alerts].
  - rewrite <- (app_nil_r (if negb _ then _ else _)). apply Hrej. intros m [].
  - apply Hrej. intros m [Hm | []]. discriminate.
  - apply Hrej. intros m [Hm | []]. discriminate.
  - rewrite <- (app_nil_r (if negb _ then _ else _)). apply Hrej. intros m [].
Qed.

(** X4. At ten entries the collection is closed: no batch changes it. *)
Theorem processFiles_at_capacity (h : IdSource) (cur : list FileDescriptor)
    (files : list File) :
  length cur = 10 ->
  setUploadedFiles_append cur (processFiles h cur files) = cur.
Proof.
  intros Hfull. unfold setUploadedFiles_append. rewrite processFiles_shape. cbv zeta.
  destruct (length (filter isValidFile files) =? 0) eqn:Hz; [reflexivity |].
  apply Nat.eqb_neq in Hz.
  replace (MAX_FILES_COUNT <? length cur + length (filter isValidFile files))
    with true by (symmetry; apply Nat.ltb_lt; unfold MAX_FILES_COUNT; lia).
  change (Z.of_nat MAX_FILES_COUNT) with 10%Z.
  replace (0 <? 10 - Z.of_nat (length cur))%Z with false
    by (symmetry; apply Z.ltb_ge; lia).
  reflexivity.
Qed.

Lemma processFiles_at_capacity_witness :
  length tenHeld = 10 /\
  setUploadedFiles_append tenHeld
    (processFiles steadyIds tenHeld [note "late.md"]) = tenHeld.
Proof.
  assert (Hfull : length tenHeld = 10) by reflexivity.
  split; [exact Hfull |].
  exact (processFiles_at_capacity steadyIds tenHeld [note "late.md"] Hfull).
Defined.

(** X5. After [removeFile(fileId)] no entry compares equal to [fileId],
    every entry that compared different is still there, and removing the
    same id again changes nothing. *)
Theorem removeFile_clears_id (fileId : float) (l : list FileDescriptor) :
  Forall (fun d => PrimFloat.eqb (id d) fileId = false) (removeFile fileId l) /\
  (forall d, In d l -> PrimFloat.eqb (id d) fileId = false ->
             In d (removeFile fileId l)) /\
  removeFile fileId (removeFile fileId l) = removeFile fileId l.
Proof.
  split; [| split].
  - apply Forall_forall. intros d Hd. now apply removeFile_In in Hd.
  - intros d Hin Hne. apply removeFile_In. now split.
  - unfold removeFile. apply forallb_filter_id. apply forallb_forall.
    intros d Hd. now apply filter_In in Hd.
Qed.

Lemma totalSize_from (l : list FileDescriptor) :
  forall acc, fold_left (fun a f => (a + size f)%N) l acc =
              (acc + totalSize l)%N.
Proof.
  unfold totalSize. induction l as [| d l IH]; intros acc; cbn [fold_left].
  - lia.
  - rewrite IH, (IH (0 + size d)%N). lia.
Qed.

Lemma totalSize_bound (l : list FileDescriptor) :
  Forall acceptable l -> (totalSize l <= MAX_FILE_SIZE * N.of_nat (length l))%N.
Proof.
  induction 1 as [| d l Hd _ IH].
  - cbn. lia.
  - unfold totalSize in *. cbn [fold_left length].
    rewrite totalSize_from. unfold totalSize.
    destruct Hd as [_ [Hsize _]]. lia.
Qed.

(** X7. The total the file summary shows never exceeds ten times the
    per-file cap, 104857600 bytes, in any collection intake can reach. *)
Theorem total_size_bounded (events : list IntakeEvent) :
  (totalSize (intakeRun events) <= 104857600)%N.
Proof.
  destruct (fold_intake_invariant events []) as [Hacc Hlen].
  { split; [constructor | cbn; unfold MAX_FILES_COUNT; lia]. }
  fold (intakeRun events) in Hacc, Hlen.
  pose proof (totalSize_bound _ Hacc) as Hb.
  unfold MAX_FILES_COUNT in Hlen. change MAX_FILE_SIZE with 10485760%N in Hb. lia.
Qed.

(** X6. With pairwise different ids, removing the id of one entry takes
    out that entry alone: the entries before and after it remain, in
    their order, and the collection is one shorter. *)
Theorem removeFile_takes_out_one (before after : list FileDescriptor)
    (d : FileDescriptor) :
  PrimFloat.eqb (id d) (id d) = true ->
  Forall (fun x => PrimFloat.eqb (id x) (id d) = false) (before ++ after) ->
  removeFile (id d) (before ++ d :: after) = before ++ after /\
  S (length (removeFile (id d) (before ++ d :: after))) =
    length (before ++ d :: after).
Proof.
  intros Hrefl Hother.
  rewrite (removeFile_distinct before after d Hrefl Hother).
  split; [reflexivity |]. rewrite !length_app. cbn [length]. lia.
Qed.

Lemma removeFile_takes_out_one_witness :
  PrimFloat.eqb (id secondHeld) (id secondHeld) = true /\
  Forall (fun x => PrimFloat.eqb (id x) (id secondHeld) = false)
         (firstn 1 threeHeld ++ skipn 2 threeHeld) /\
  map name (removeFile (id secondHeld) threeHeld) = ["a.md"; "c.md"].
Proof.
  assert (Hothers : Forall (fun x => PrimFloat.eqb (id x) (id secondHeld) = false)
                           (firstn 1 threeHeld ++ skipn 2 threeHeld))
    by (vm_compute; repeat constructor).
  split; [reflexivity |]. split; [exact Hothers |].
  change threeHeld with (firstn 1 threeHeld ++ secondHeld :: skipn 2 threeHeld).
  rewrite (proj1 (removeFile_takes_out_one (firstn 1 threeHeld) (skipn 2 threeHeld)
                    secondHeld eq_refl Hothers)).
  reflexivity.
Defined.

(** ** Extraction and presentation *)

Lemma length_append (a b : string) :
  String.length (a ++ b)%string = String.length a + String.length b.
Proof. induction a as [| c a IH]; cbn; [reflexivity | now rewrite IH]. Qed.

Lemma substring_length_le (n : nat) :
  forall s, String.length (substring 0 n s) <= n.
Proof.
  induction n as [| n IH]; intros [| c s]; cbn; try lia.
  specialize (IH s). lia.
Qed.

(** X8. What the text arm resolves to is bounded: at most 50,035 code
    units (50,000 of content and the 35 of the marker), however long the
    file is. *)
Theorem extracted_text_bounded (rd : File -> ReadEvent) (f : File) (s : string) :
  extractorBranch (file_type f) = TextBranch ->
  readFileContent rd f = Resolved s ->
  (N.of_nat (String.length s) <= 50035)%N.
Proof.
  intros Hbranch. unfold readFileContent. rewrite Hbranch.
  destruct (rd f) as [content |]; [| discriminate].
  intros [= <-]. unfold limitContent.
  destruct (50000 <? N.of_nat (String.length content))%N eqn:Hlong.
  - rewrite length_append.
    pose proof (substring_length_le (N.to_nat 50000) content) as Hsub.
    change (String.length TRUNCATION_MARKER) with 35. lia.
  - apply N.ltb_ge in Hlong. lia.
Qed.

Lemma extracted_text_bounded_witness :
  extractorBranch (file_type (note "a.md")) = TextBranch /\
  readFileContent (fun _ => onload "# Notes") (note "a.md") = Resolved "# Notes" /\
  (N.of_nat (String.length "# Notes") <= 50035)%N.
Proof.
  split; [reflexivity |]. split; [reflexivity |].
  exact (extracted_text_bounded (fun _ => onload "# Notes") (note "a.md") "# Notes"
           eq_refl eq_refl).
Defined.

Lemma label_icon_follow_branch (t : string) :
  (getFileTypeLabel t, getFileIcon t) =
  match extractorBranch t with
  | PdfBranch => ("PDF", PageFacingUp)
  | TextBranch => ("Markdown", Memo)
  | DocxBranch => ("DOCX", BlueBook)
  | UnsupportedBranch => ("Unknown", FileFolder)
  end.
Proof.
  unfold getFileTypeLabel, getFileIcon, extractorBranch.
  destruct (String.eqb t "application/pdf"); [reflexivity |].
  destruct (includes t "markdown" || includes t "text"); [reflexivity |].
  destruct (includes t "wordprocessingml"); reflexivity.
Qed.

(** X9. In every collection intake can reach, each entry is listed with
    the label and icon of the arm extraction will take for it, and none is
    listed as "Unknown" or with the folder icon. *)
Theorem accepted_files_are_labelled (events : list IntakeEvent) :
  Forall (fun d =>
            (getFileTypeLabel (type d), getFileIcon (type d)) =
              match extractorBranch (file_type (file d)) with
              | PdfBranch => ("PDF", PageFacingUp)
              | TextBranch => ("Markdown", Memo)
              | DocxBranch => ("DOCX", BlueBook)
              | UnsupportedBranch => ("Unknown", FileFolder)
              end /\
            getFileTypeLabel (type d) <> "Unknown" /\
            getFileIcon (type d) <> FileFolder)
         (intakeRun events).
Proof.
  destruct (fold_intake_invariant events []) as [Hacc _].
  { split; [constructor | cbn; unfold MAX_FILES_COUNT; lia]. }
  fold (intakeRun events) in Hacc.
  eapply Forall_impl; [| exact Hacc].
  intros d [Hin [_ [Htype _]]]. rewrite <- Htype.
  split; [apply label_icon_follow_branch |].
  destruct Hin as [Ht | [Ht | [Ht | [Ht | []]]]]; rewrite <- Ht;
    split; vm_compute; discriminate.
Qed.

(** ** The existing-document heuristic *)

Lemma toLowerCase_append (a b : string) :
  toLowerCase (a ++ b)%string = (toLowerCase a ++ toLowerCase b)%string.
Proof. induction a as [| c a IH]; cbn; [reflexivity | now rewrite IH]. Qed.

Lemma prefix_append (sub post : string) : prefix sub (sub ++ post)%string = true.
Proof.
  induction sub as [| c sub IH]; cbn; [now destruct post |].
  destruct (ascii_dec c c); [exact IH | congruence].
Qed.

Lemma includes_append (pre sub post : string) :
  includes (pre ++ sub ++ post)%string sub = true.
Proof.
  induction pre as [| c pre IH].
  - cbn [append]. destruct (sub ++ post)%string eqn:E;
      cbn [includes]; rewrite <- E, prefix_append; reflexivity.
  - cbn [append includes]. rewrite IH. apply orb_true_r.
Qed.

(** X10. The heuristic does not depend on letter case: a name that
    contains, in any mix of capitals and small letters, "brd", "business
    requirements" or "requirements document" marks the file as an
    existing document. *)
Theorem heuristic_ignores_case (d : FileDescriptor) (pre u post : string) :
  name d = (pre ++ u ++ post)%string ->
  In (toLowerCase u) ["brd"; "business requirements"; "requirements document"] ->
  looksLikeBRD d = true.
Proof.
  intros Hname Hkey. unfold looksLikeBRD.
  rewrite Hname, !toLowerCase_append.
  destruct Hkey as [Hk | [Hk | [Hk | []]]]; rewrite <- Hk, includes_append;
    rewrite ?orb_true_r; reflexivity.
Qed.

Lemma heuristic_ignores_case_witness :
  name finalBRD = ("Final_" ++ "BRD" ++ "_v2.pdf")%string /\
  In (toLowerCase "BRD") ["brd"; "business requirements"; "requirements document"] /\
  looksLikeBRD finalBRD = true.
Proof.
  assert (Hkey : In (toLowerCase "BRD")
                    ["brd"; "business requirements"; "requirements document"])
    by (left; reflexivity).
  split; [reflexivity |]. split; [exact Hkey |].
  exact (heuristic_ignores_case finalBRD "Final_" "BRD" "_v2.pdf" eq_refl Hkey).
Defined.

(** ** The Generate button *)

Lemma trimStart_blank (s : string) :
  trimStart s = EmptyString <->
  forall c, In c (list_ascii_of_string s) -> isWhitespace c = true.
Proof.
  induction s as [| c s IH]; cbn [trimStart list_ascii_of_string].
  - split; [intros _ c [] | reflexivity].
  - destruct (isWhitespace c) eqn:Hc.
    + rewrite IH. split.
      * intros H c' [<- | Hin]; [exact Hc | now apply H].
      * intros H c' Hin. apply H. now right.
    + split; [discriminate |]. intros H.
      specialize (H c (or_introl eq_refl)). congruence.
Qed.

Lemma trimEnd_blank (s : string) :
  trimEnd s = EmptyString <->
  forall c, In c (list_ascii_of_string s) -> isWhitespace c = true.
Proof.
  induction s as [| c s IH]; cbn [trimEnd list_ascii_of_string].
  - split; [intros _ c [] | reflexivity].
  - destruct (trimEnd s) as [| c' rest] eqn:Hrest.
    + destruct (isWhitespace c) eqn:Hc.
      * split; [| reflexivity]. intros _ c' [<- | Hin]; [exact Hc |].
        now apply (proj1 IH eq_refl).
      * split; [discriminate |]. intros H.
        specialize (H c (or_introl eq_refl)). congruence.
    + split; [discriminate |]. intros H.
      assert (Hs : String c' rest = EmptyString)
        by (apply IH; intros x Hx; apply H; now right).
      discriminate.
Qed.

Lemma trimStart_suffix (s : string) (c : ascii) :
  In c (list_ascii_of_string (trimStart s)) -> In c (list_ascii_of_string s).
Proof.
  induction s as [| a s IH]; cbn [trimStart]; [tauto |].
  destruct (isWhitespace a); [| tauto].
  intros H. right. now apply IH.
Qed.

Lemma trim_blank (s : string) :
  js_not (trim s) = true <->
  forall c, In c (list_ascii_of_string s) -> isWhitespace c = true.
Proof.
  unfold trim.
  assert (Hnot : forall t, js_not t = true <-> t = EmptyString)
    by (intros [| ? ?]; cbn; split; congruence).
  rewrite Hnot, trimEnd_blank. split.
  - intros H. apply trimStart_blank.
    destruct (trimStart s) as [| a rest] eqn:Hts; [reflexivity |].
    assert (Ha : isWhitespace a = true) by (apply H; now left).
    clear H. exfalso. revert Hts.
    induction s as [| b s IH]; cbn [trimStart]; [discriminate |].
    destruct (isWhitespace b) eqn:Hb; [exact IH |].
    intros [= -> _]. congruence.
  - intros H c Hc. apply H. now apply trimStart_suffix.
Qed.

(** X11. When Generate can be pressed: exactly when nothing is in
    flight and there is something to send, that is, a description or
    additional information with a code unit that is not whitespace, or an
    attached file.  Text made of spaces, tabs and line breaks alone does
    not enable the button. *)
Theorem generate_enabled_iff (d : Dashboard) :
  generateDisabled d = false <->
  isGenerating d = false /\ isProcessingFiles d = false /\
  ((exists c, In c (list_ascii_of_string (projectDescription d)) /\
              isWhitespace c = false) \/
   (exists c, In c (list_ascii_of_string (additionalInfo d)) /\
              isWhitespace c = false) \/
   uploadedFiles d <> []).
Proof.
  assert (Hblank : forall s,
            js_not (trim s) = false <->
            exists c, In c (list_ascii_of_string s) /\ isWhitespace c = false).
  { intros s. split.
    - intros Hn.
      destruct (forallb isWhitespace (list_ascii_of_string s)) eqn:Hall.
      + rewrite forallb_forall in Hall. apply trim_blank in Hall. congruence.
      + assert (Hex : existsb (fun c => negb (isWhitespace c))
                        (list_ascii_of_string s) = true).
        { clear Hn. induction (list_ascii_of_string s) as [| a l IH];
            cbn in *; [discriminate |].
          destruct (isWhitespace a); cbn in *; [now apply IH | reflexivity]. }
        apply existsb_exists in Hex as [c [Hin Hc]].
        exists c. split; [exact Hin | now apply negb_true_iff].
    - intros [c [Hin Hc]].
      destruct (js_not (trim s)) eqn:Hn; [| reflexivity].
      rewrite trim_blank in Hn. rewrite (Hn c Hin) in Hc. discriminate. }
  unfold generateDisabled.
  rewrite !orb_false_iff, !andb_false_iff, !Hblank, Nat.eqb_neq.
  split.
  - intros [[Hg Hp] Hsome]. split; [exact Hg |]. split; [exact Hp |].
    destruct Hsome as [[Hd | Ha] | Hf]; [tauto | tauto |].
    right. right. intros Hnil. rewrite Hnil in Hf. now apply Hf.
  - intros [Hg [Hp Hsome]]. split; [now split |].
    destruct Hsome as [Hd | [Ha | Hf]]; [tauto | tauto |].
    right. destruct (uploadedFiles d); [congruence | discriminate].
Qed.

(** ** Submission *)

Lemma generateBRD_body_terminates (h : Host) (snap : Dashboard) (fc : Promise (list Wire.ExtractedContent)) (b : bool) (w0 : World) :
  fst ((if 0 <? length (uploadedFiles snap) then
          setIsProcessingFiles true ;;
          fileContents <- await fc ;;
          setIsProcessingFiles false ;;
          if b then
            sendAndStore h
              (post "/api/generate_brd_with_files"
                 {| Wire.project_description :=
                      js_or (additionalInfo snap) "Improve existing BRD document";
                    Wire.uploaded_files := Some fileContents;
                    Wire.model := "gemini-2.0-flash" |})
          else
            sendAndStore h
              (post "/api/generate_brd_with_files"
                 {| Wire.project_description :=
                      js_or (projectDescription snap)
                        (js_or (additionalInfo snap)
                           "Project requirements from uploaded files");
                    Wire.uploaded_files := Some fileContents;
                    Wire.model := "gemini-2.0-flash" |})
        else
          sendAndStore h
            (post "/api/generate_brd_from_input"
               {| Wire.project_description :=
                    js_or (projectDescription snap)
                      (js_or (additionalInfo snap) "Project requirements");
                  Wire.uploaded_files := None;
                  Wire.model := "gemini-2.0-flash" |})) w0) <> OutOfFuel.
Proof.
  destruct (0 <? length (uploadedFiles snap)); [| apply sendAndStore_terminates].
  destruct fc as [l | e]; run_effects; cbn [fst snd]; [| discriminate].
  destruct b; apply sendAndStore_terminates.
Qed.

(** X12. No error escapes [generateBRD]: whatever the reader, the network
    and the server do, the handler returns normally and leaves
    [isGenerating] false. *)
Theorem generateBRD_always_completes (h : Host) (snap : Dashboard) (w : World) :
  fst (generateBRD h snap w) = Returned tt /\
  isGenerating (ui (snd (generateBRD h snap w))) = false.
Proof.
  unfold generateBRD. cbv zeta.
  match goal with |- context [try_catch_finally ?body _ _] =>
    pose proof (generateBRD_body_terminates h snap
                  (Promise_all (map (extractOne h) (uploadedFiles snap)))
                  (existsb looksLikeBRD (uploadedFiles snap))) as Hend;
    change (forall w0, fst (body w0) <> OutOfFuel) in Hend;
    generalize dependent body end.
  intros body Hend. run_effects. cbn.
  match goal with |- context [body ?w0] =>
    specialize (Hend w0); destruct (body w0) as [[[] | e |] w1] end;
    cbn in *; [split; reflexivity | split; reflexivity | congruence].
Qed.

(** X13. One generation sends at most one request, and any request it
    sends is a JSON POST for the model "gemini-2.0-flash": to the
    with-files endpoint, carrying [uploaded_files], when a file is
    attached, and to the from-input endpoint, carrying none, otherwise. *)
Theorem generateBRD_at_most_one_request (h : Host) (snap : Dashboard) (w : World) :
  network (snd (generateBRD h snap w)) = network w \/
  exists r,
    network (snd (generateBRD h snap w)) = network w ++ [r] /\
    method r = "POST" /\ content_type r = "application/json" /\
    Wire.model (body r) = "gemini-2.0-flash" /\
    match uploadedFiles snap with
    | [] => url r = "/api/generate_brd_from_input" /\
            Wire.uploaded_files (body r) = None
    | _ :: _ => url r = "/api/generate_brd_with_files" /\
                exists fileContents,
                  Wire.uploaded_files (body r) = Some fileContents /\
                  length fileContents = length (uploadedFiles snap)
    end.
Proof.
  unfold generateBRD. cbv zeta.
  rewrite generateBRD_frame_network
    by (intros w0; apply (generateBRD_body_terminates h snap
                            (Promise_all (map (extractOne h) (uploadedFiles snap)))
                            (existsb looksLikeBRD (uploadedFiles snap)))).
  destruct (uploadedFiles snap) as [| d files] eqn:Hfiles.
  - right. cbn [length Nat.ltb Nat.leb]. rewrite sendAndStore_network.
    eexists. split; [reflexivity |]. repeat split.
  - cbn [length Nat.ltb Nat.leb].
    destruct (Promise_all (map (extractOne h) (d :: files))) as [fc | e] eqn:Hall.
    + right. run_effects. cbn [fst snd].
      assert (Hlen : length fc = length (d :: files)).
      { clear - Hall. revert fc Hall.
        induction (d :: files) as [| x l IH]; intros fc; cbn [map Promise_all].
        - now intros [= <-].
        - unfold extractOne at 1.
          destruct (readFileContent (readAsText h) (file x)); [| discriminate].
          destruct (Promise_all (map (extractOne h) l)) as [l' |]; [| discriminate].
          intros [= <-]. cbn [length]. now rewrite (IH l' eq_refl). }
      destruct (existsb looksLikeBRD (d :: files)); rewrite sendAndStore_network;
        (eexists; split; [reflexivity |]; repeat split;
         eexists; split; [reflexivity | exact Hlen]).
    + left. reflexivity.
Qed.

(** X14. How a submission ends once every extraction has resolved.  One
    request [r] is sent.  A successful response whose body parses becomes
    the new result and the error stays cleared; a response that is not
    [ok] leaves the result as it was and sets the error to "HTTP error!
    status: " followed by the status in decimal; a transport failure or an
    unparsable body leaves the result as it was and sets the error to the
    exception's message, or to "Failed to generate BRD" when that is
    empty. *)
Theorem generateBRD_outcome (h : Host) (snap : Dashboard) (w : World)
    (fileContents : list Wire.ExtractedContent) :
  Promise_all (map (extractOne h) (uploadedFiles snap)) = Resolved fileContents ->
  exists r,
    network (snd (generateBRD h snap w)) = network w ++ [r] /\
    match fetch h r with
    | Response true _ (Resolved data) =>
        result (ui (snd (generateBRD h snap w))) = Some data /\
        error (ui (snd (generateBRD h snap w))) = None
    | Response false status _ =>
        result (ui (snd (generateBRD h snap w))) = result (ui w) /\
        error (ui (snd (generateBRD h snap w))) =
          Some ("HTTP error! status: " ++
                NilEmpty.string_of_uint (Nat.to_uint status))%string
    | Response true _ (Rejected e) | TransportFailure e =>
        result (ui (snd (generateBRD h snap w))) = result (ui w) /\
        error (ui (snd (generateBRD h snap w))) =
          Some (js_or (message e) "Failed to generate BRD")
    end.
Proof.
  intros Hall. unfold generateBRD. rewrite Hall. cbv zeta.
  destruct (0 <? length (uploadedFiles snap));
    [destruct (existsb looksLikeBRD (uploadedFiles snap)) |];
    unfold sendAndStore; run_effects; cbn [fst snd network ui];
    match goal with |- context [fetch h ?R] =>
      destruct (fetch h R) as [e | [|] status [data | e]] eqn:Hf end;
    (eexists; split; [reflexivity | rewrite Hf; split; reflexivity]).
Qed.

Lemma generateBRD_outcome_witness :
  Promise_all (map (extractOne obligingHost)
                 (uploadedFiles (filledIn "Payroll portal" "" [note "a.md"]))) =
    Resolved [ {| Wire.filename := "a.md"; Wire.content := "# Notes";
                  Wire.type := "text/markdown" |} ] /\
  exists r,
    network (snd (generateBRD obligingHost (filledIn "Payroll portal" "" [note "a.md"])
                    (pageLoaded (filledIn "Payroll portal" "" [note "a.md"])))) =
    [] ++ [r].
Proof.
  split; [reflexivity |].
  destruct (generateBRD_outcome obligingHost
              (filledIn "Payroll portal" "" [note "a.md"])
              (pageLoaded (filledIn "Payroll portal" "" [note "a.md"]))
              _ eq_refl) as [r [Hnet _]].
  exists r. exact Hnet.
Defined.

(** X15. After a submission whose extraction failed, [isProcessingFiles]
    is left true: the reset that follows the join is skipped and nothing
    else resets it.  From then on the Generate button is disabled whatever
    the fields hold. *)
Theorem failed_extraction_leaves_processing_flag (h : Host) (snap : Dashboard)
    (w : World) :
  (exists d e, In d (uploadedFiles snap) /\
               readFileContent (readAsText h) (file d) = Rejected e) ->
  isProcessingFiles (ui (snd (generateBRD h snap w))) = true /\
  forall description info files,
    generateDisabled
      {| projectDescription := description; additionalInfo := info;
         uploadedFiles := files;
         isGenerating := isGenerating (ui (snd (generateBRD h snap w)));
         isGeneratingPDF := isGeneratingPDF (ui (snd (generateBRD h snap w)));
         isProcessingFiles := isProcessingFiles (ui (snd (generateBRD h snap w)));
         result := result (ui (snd (generateBRD h snap w)));
         error := error (ui (snd (generateBRD h snap w))) |} = true.
Proof.
  intros Hfail.
  assert (Hfiles : (0 <? length (uploadedFiles snap)) = true).
  { destruct Hfail as [d [_ [Hin _]]].
    destruct (uploadedFiles snap); [contradiction | reflexivity]. }
  apply extraction_join_rejection in Hfail.
  assert (Hflag : isProcessingFiles (ui (snd (generateBRD h snap w))) = true).
  { unfold generateBRD. rewrite Hfiles, Hfail. reflexivity. }
  split; [exact Hflag |]. intros description info files.
  unfold generateDisabled. cbn [isGenerating isProcessingFiles].
  rewrite Hflag. now rewrite orb_true_r.
Qed.

Lemma failed_extraction_leaves_processing_flag_witness :
  (exists d e, In d (uploadedFiles (filledIn "Payroll portal" "" [note "a.md"])) /\
               readFileContent (readAsText unreadableHost) (file d) = Rejected e) /\
  isProcessingFiles
    (ui (snd (generateBRD unreadableHost
                (filledIn "Payroll portal" "" [note "a.md"])
                (pageLoaded (filledIn "Payroll portal" "" [note "a.md"]))))) = true.
Proof.
  assert (Hfail : exists d e,
             In d (uploadedFiles (filledIn "Payroll portal" "" [note "a.md"])) /\
             readFileContent (readAsText unreadableHost) (file d) = Rejected e).
  { eexists. eexists. split; [left; reflexivity | reflexivity]. }
  split; [exact Hfail |].
  exact (proj1 (failed_extraction_leaves_processing_flag unreadableHost
                  (filledIn "Payroll portal" "" [note "a.md"])
                  (pageLoaded (filledIn "Payroll portal" "" [note "a.md"]))
                  Hfail)).
Defined.

(** X16. The [uploaded_files] array lines up with the attached files:
    entry by entry it carries the descriptor's name and type, and as
    content what [readFileContent] resolved to for that file. *)
Theorem payload_follows_files (h : Host) (files : list FileDescriptor)
    (fileContents : list Wire.ExtractedContent) :
  Promise_all (map (extractOne h) files) = Resolved fileContents ->
  Forall2 (fun d c =>
             Wire.filename c = name d /\ Wire.type c = type d /\
             readFileContent (readAsText h) (file d) = Resolved (Wire.content c))
          files fileContents.
Proof.
  revert fileContents.
  induction files as [| d files IH]; intros fileContents; cbn [map Promise_all].
  - intros [= <-]. constructor.
  - unfold extractOne at 1.
    destruct (readFileContent (readAsText h) (file d)) as [c |] eqn:Hread;
      [| discriminate].
    destruct (Promise_all (map (extractOne h) files)) as [l |]; [| discriminate].
    intros [= <-]. constructor; [cbn; repeat split; exact Hread | now apply IH].
Qed.

Lemma payload_follows_files_witness :
  Promise_all (map (extractOne obligingHost) [finalBRD]) =
    Resolved [ {| Wire.filename := "Final_BRD_v2.pdf";
                  Wire.content := pdfPlaceholder "Final_BRD_v2.pdf";
                  Wire.type := "application/pdf" |} ] /\
  Forall2 (fun d c =>
             Wire.filename c = name d /\ Wire.type c = type d /\
             readFileContent (readAsText obligingHost) (file d) =
               Resolved (Wire.content c))
          [finalBRD]
          [ {| Wire.filename := "Final_BRD_v2.pdf";
               Wire.content := pdfPlaceholder "Final_BRD_v2.pdf";
               Wire.type := "application/pdf" |} ].
Proof.
  split; [reflexivity |].
  exact (payload_follows_files obligingHost [finalBRD] _ eq_refl).
Defined.

(** ** PDF export, continued *)

Section PageStructure.

Variable h : Host.
Variable canvas : Canvas.
Variables imgWidth pageHeight imgHeight : float.

(** A page that shows the image once, at some vertical offset. *)
Let oneImage (p : list Placement) : Prop :=
  exists pos, p = [ {| position := pos; drawnWidth := imgWidth;
                       drawnHeight := imgHeight |} ].

Lemma additionalPages_pages (fuel : nat) :
  forall (heightLeft : float) (pdf pdf' : Pdf) (w w' : World),
  additionalPages h fuel canvas imgWidth pageHeight imgHeight heightLeft pdf w =
    (Returned pdf', w') ->
  exists added, pages pdf' = pages pdf ++ added /\ Forall oneImage added.
Proof.
  induction fuel as [| fuel IH]; intros heightLeft pdf pdf' w w';
    cbn [additionalPages]; destruct (0 <=? heightLeft)%float.
  - discriminate.
  - intros [= <- _]. exists []. now rewrite app_nil_r.
  - unfold bind, addImage.
    destruct (addImage_throws h canvas (heightLeft - imgHeight)%float);
      [discriminate |].
    cbn [ret]. intros Hrest. apply IH in Hrest as [added [Hpages Hall]].
    exists ([ {| position := (heightLeft - imgHeight)%float;
                 drawnWidth := imgWidth; drawnHeight := imgHeight |} ] :: added).
    split.
    + rewrite Hpages. unfold pages, addPage. cbn [earlier current app].
      now rewrite <- !app_assoc.
    + constructor; [eexists; reflexivity | exact Hall].
  - intros [= <- _]. exists []. now rewrite app_nil_r.
Qed.

End PageStructure.

Lemma paginate_cases (h : Host) (fuel : nat) (c : Canvas) (filename : string) (w : World) :
  paginate h fuel c filename w = (OutOfFuel, w) \/
  (exists e, paginate h fuel c filename w = (Thrown e, w)) \/
  (exists pdf,
     paginate h fuel c filename w =
       (Returned tt,
        {| ui := ui w; network := network w; document_body := document_body w;
           alerted := alerted w; saved := saved w ++ [(filename, pdf)];
           created := created w |}) /\
     hd_error (pages pdf) =
       Some [ {| position := 0%float; drawnWidth := 210%float;
                 drawnHeight := (height c * 210 / width c)%float |} ] /\
     Forall (fun p => exists pos,
                p = [ {| position := pos; drawnWidth := 210%float;
                         drawnHeight := (height c * 210 / width c)%float |} ])
            (pages pdf)).
Proof.
  unfold paginate, bind, addImage.
  destruct (addImage_throws h c 0%float) as [e |]; unfold throw, ret;
    [right; left; now exists e |].
  match goal with |- context [additionalPages h fuel c ?iw ?ph ?ih ?left ?pdf w] =>
    pose proof (additionalPages_body h c iw ph ih fuel left pdf w) as Hw;
    pose proof (additionalPages_pages h c iw ph ih fuel left pdf) as Hpages;
    destruct (additionalPages h fuel c iw ph ih left pdf w)
      as [[pdf' | e |] w'] eqn:Hrun end;
    cbn [snd] in Hw; subst w'.
  - unfold save. destruct (save_throws h filename) as [e |].
    + right. left. now exists e.
    + right. right. exists pdf'. split; [reflexivity |].
      destruct (Hpages pdf' w w Hrun) as [added [Heq Hall]].
      rewrite Heq. unfold pages, new_jsPDF. cbn [earlier current app hd_error].
      split; [reflexivity |].
      constructor; [eexists; reflexivity | exact Hall].
  - right. left. now exists e.
  - left. reflexivity.
Qed.

(** X17. An export with a result either runs out of fuel in the page loop
    or returns normally with [isGeneratingPDF] false, and then exactly one
    of two things has happened: one document was saved, under the title
    with its whitespace runs replaced by underscores followed by
    "_BRD.pdf", and no alert was raised; or the alert was raised and
    nothing was saved.  No error escapes. *)
Theorem downloadPDF_saves_or_alerts (h : Host) (fuel : nat) (snap : Dashboard)
    (w : World) (r : GenerationResult) :
  result snap = Some r ->
  fst (downloadPDF h fuel snap w) = OutOfFuel \/
  (fst (downloadPDF h fuel snap w) = Returned tt /\
   isGeneratingPDF (ui (snd (downloadPDF h fuel snap w))) = false /\
   ((exists pdf,
       saved (snd (downloadPDF h fuel snap w)) =
         saved w ++ [((underscoreRuns false (project_name r) ++ "_BRD.pdf")%string, pdf)] /\
       alerted (snd (downloadPDF h fuel snap w)) = alerted w) \/
    (saved (snd (downloadPDF h fuel snap w)) = saved w /\
     alerted (snd (downloadPDF h fuel snap w)) = alerted w ++ [AlertPdfError]))).
Proof.
  intros Hres. unfold downloadPDF. rewrite Hres. run_effects.
  destruct (marked h (brd_markdown r)) as [html | e]; cbn [fst snd];
    [| right; repeat split; right; split; reflexivity].
  match goal with |- context [html2canvas h ?n] =>
    destruct (html2canvas h n) as [c | e] end; cbn [fst snd];
    [| right; repeat split; right; split; reflexivity].
  match goal with |- context [paginate h fuel c ?f ?w0] =>
    destruct (paginate_cases h fuel c f w0) as [Hp | [[e Hp] | [pdf [Hp _]]]];
    rewrite Hp end; cbn.
  - left. reflexivity.
  - right. repeat split. right. split; reflexivity.
  - right. repeat split. left. exists pdf. split; reflexivity.
Qed.

Lemma downloadPDF_saves_or_alerts_witness :
  result generated = Some sampleResult /\
  map fst (saved (snd (downloadPDF obligingHost 30 generated (pageLoaded generated)))) =
    ["Payroll_Portal_BRD.pdf"].
Proof.
  split; [reflexivity |].
  destruct (downloadPDF_saves_or_alerts obligingHost 30 generated
              (pageLoaded generated) sampleResult eq_refl)
    as [Hfuel | [_ [_ [[pdf [Hsaved _]] | [Hsaved _]]]]].
  - discriminate Hfuel.
  - rewrite Hsaved. reflexivity.
  - reflexivity.
Defined.

(** X18. When the markdown parser throws, the export stops before any
    element exists: nothing is created, attached or saved; the alert is
    raised and [isGeneratingPDF] is false again. *)
Theorem failed_parse_touches_nothing (h : Host) (fuel : nat) (snap : Dashboard)
    (w : World) (r : GenerationResult) (e : Error) :
  result snap = Some r ->
  marked h (brd_markdown r) = Abrupt e ->
  fst (downloadPDF h fuel snap w) = Returned tt /\
  document_body (snd (downloadPDF h fuel snap w)) = document_body w /\
  created (snd (downloadPDF h fuel snap w)) = created w /\
  saved (snd (downloadPDF h fuel snap w)) = saved w /\
  alerted (snd (downloadPDF h fuel snap w)) = alerted w ++ [AlertPdfError] /\
  isGeneratingPDF (ui (snd (downloadPDF h fuel snap w))) = false.
Proof.
  intros Hres Hmd. unfold downloadPDF. rewrite Hres. run_effects. rewrite Hmd.
  repeat split.
Qed.

Lemma failed_parse_touches_nothing_witness :
  result generated = Some sampleResult /\
  marked brokenParser (brd_markdown sampleResult) =
    Abrupt (mkError "marked(): input parameter is of type [object Object]") /\
  created (snd (downloadPDF brokenParser 30 generated (pageLoaded generated))) = 0.
Proof.
  split; [reflexivity |]. split; [reflexivity |].
  exact (proj1 (proj2 (proj2 (failed_parse_touches_nothing brokenParser 30 generated
                                (pageLoaded generated) sampleResult _
                                eq_refl eq_refl)))).
Defined.

(** X19. The shape of a saved document: its first page shows the image
    at offset 0, and every page shows the whole image exactly once, 210 mm
    wide and [canvas.height * 210 / canvas.width] mm high; the pages
    differ only in the vertical offset. *)
Theorem saved_pages_show_one_image (h : Host) (fuel : nat) (c : Canvas)
    (filename : string) (w w' : World) :
  paginate h fuel c filename w = (Returned tt, w') ->
  exists pdf,
    saved w' = saved w ++ [(filename, pdf)] /\
    hd_error (pages pdf) =
      Some [ {| position := 0%float; drawnWidth := 210%float;
                drawnHeight := (height c * 210 / width c)%float |} ] /\
    Forall (fun p => exists pos,
               p = [ {| position := pos; drawnWidth := 210%float;
                        drawnHeight := (height c * 210 / width c)%float |} ])
           (pages pdf).
Proof.
  intros Hrun.
  destruct (paginate_cases h fuel c filename w) as [Hp | [[e Hp] | [pdf [Hp Hshape]]]];
    rewrite Hp in Hrun; try discriminate.
  injection Hrun as <-. exists pdf. split; [reflexivity | exact Hshape].
Qed.

Lemma saved_pages_show_one_image_witness :
  exists w',
    paginate obligingHost 30 {| width := 2400; height := 3372 |} "x.pdf"
      (pageLoaded generated) = (Returned tt, w') /\
    exists pdf, saved w' = [] ++ [("x.pdf", pdf)].
Proof.
  eexists. split; [vm_compute; reflexivity |].
  destruct (saved_pages_show_one_image obligingHost 30
              {| width := 2400; height := 3372 |} "x.pdf" (pageLoaded generated) _
              ltac:(vm_compute; reflexivity)) as [pdf [Hsaved _]].
  exists pdf. exact Hsaved.
Defined.

(** ** File names and markup *)

Lemma underscore_is_not_whitespace : isWhitespace "_" = false.
Proof. reflexivity. Qed.

Lemma underscoreRuns_clean (s : string) :
  forall inRun c, In c (list_ascii_of_string (underscoreRuns inRun s)) ->
                  isWhitespace c = false.
Proof.
  induction s as [| a s IH]; intros inRun c; cbn [underscoreRuns]; [intros [] |].
  destruct (isWhitespace a) eqn:Ha.
  - destruct inRun; [apply IH |].
    cbn [list_ascii_of_string]. intros [<- | Hin];
      [apply underscore_is_not_whitespace | now apply IH in Hin].
  - cbn [list_ascii_of_string]. intros [<- | Hin]; [exact Ha | now apply IH in Hin].
Qed.

Lemma underscoreRuns_fixed (s : string) :
  (forall c, In c (list_ascii_of_string s) -> isWhitespace c = false) ->
  forall inRun, underscoreRuns inRun s = s.
Proof.
  induction s as [| a s IH]; intros Hclean inRun; cbn [underscoreRuns]; [reflexivity |].
  rewrite (Hclean a (or_introl eq_refl)). f_equal. apply IH.
  intros c Hc. apply Hclean. now right.
Qed.

(** X20. The title as it enters a download name holds no whitespace: no
    space, tab, line break or no-break space survives
    [replace(/\s+/g, '_')], and sanitising a second time changes nothing. *)
Theorem sanitised_title_has_no_whitespace (title : string) :
  (forall c, In c (list_ascii_of_string (underscoreRuns false title)) ->
             isWhitespace c = false) /\
  underscoreRuns false (underscoreRuns false title) = underscoreRuns false title.
Proof.
  split; [apply underscoreRuns_clean |].
  apply underscoreRuns_fixed, underscoreRuns_clean.
Qed.

Lemma replaceAll_absent (p : ascii) (pat rep s : string) :
  ~ In p (list_ascii_of_string s) ->
  replaceAll (String p pat) rep s = s.
Proof.
  unfold replaceAll. induction s as [| c s IH]; intros Hno; [reflexivity |].
  cbn [replaceAll_from prefix].
  destruct (ascii_dec p c) as [-> | Hne].
  - exfalso. apply Hno. now left.
  - f_equal. apply IH. intros Hin. apply Hno. now right.
Qed.

(** X21. Markup without any "<" goes through the eight style
    replacements unchanged. *)
Theorem enhanceHtml_leaves_plain_text (htmlContent : string) :
  ~ In "<"%char (list_ascii_of_string htmlContent) ->
  enhanceHtml htmlContent = htmlContent.
Proof.
  intros Hno. unfold enhanceHtml, STYLE_RULES.
  cbn [fold_left fst snd append].
  do 8 rewrite (replaceAll_absent "<"%char _ _ htmlContent Hno).
  reflexivity.
Qed.

Lemma enhanceHtml_leaves_plain_text_witness :
  ~ In "<"%char (list_ascii_of_string "No markup here") /\
  enhanceHtml "No markup here" = "No markup here".
Proof.
  assert (Hno : ~ In "<"%char (list_ascii_of_string "No markup here")).
  { cbn. intros H. repeat (destruct H as [H | H]; [discriminate H |]). exact H. }
  split; [exact Hno |].
  exact (enhanceHtml_leaves_plain_text "No markup here" Hno).
Defined.

(** ** Text export *)

Lemma fresh_child_filtered (children : list nat) (element : nat) :
  Forall (fun c => c < element) children ->
  filter (fun c => negb (c =? element)) (children ++ [element]) = children.
Proof.
  intros Hfresh. rewrite filter_app. cbn [filter]. rewrite Nat.eqb_refl.
  cbn [negb]. rewrite app_nil_r. apply forallb_filter_id, forallb_forall.
  intros c Hc. rewrite Forall_forall in Hfresh. specialize (Hfresh c Hc).
  apply negb_true_iff, Nat.eqb_neq. lia.
Qed.

(** X22. The text export saves exactly one file: its name is the title
    with whitespace runs replaced by underscores, followed by "_BRD.md";
    its content is the single part [brd_markdown], unchanged, typed
    text/markdown.  The anchor it attaches is detached again, so the body
    has the children it had; the object URL it creates is kept. *)
Theorem downloadBRD_saves_markdown (snap : Dashboard) (p : DownloadPage)
    (r : GenerationResult) :
  result snap = Some r ->
  Forall (fun c => c < elements_created p) (body_children p) ->
  downloads (downloadBRD snap p) =
    downloads p ++
      [ ((underscoreRuns false (project_name r) ++ "_BRD.md")%string,
         {| parts := [brd_markdown r]; blob_type := "text/markdown" |}) ] /\
  body_children (downloadBRD snap p) = body_children p /\
  object_urls (downloadBRD snap p) =
    object_urls p ++ [ {| parts := [brd_markdown r]; blob_type := "text/markdown" |} ] /\
  elements_created (downloadBRD snap p) = S (elements_created p).
Proof.
  intros Hres Hfresh. unfold downloadBRD, clickAnchor. rewrite Hres.
  cbn [object_urls body_children downloads elements_created].
  rewrite nth_error_app2, Nat.sub_diag by lia.
  cbn [nth_error object_urls body_children downloads elements_created].
  rewrite (fresh_child_filtered _ _ Hfresh). repeat split.
Qed.

Lemma downloadBRD_saves_markdown_witness :
  result generated = Some sampleResult /\
  Forall (fun c => c < elements_created freshPage) (body_children freshPage) /\
  downloads (downloadBRD generated freshPage) =
    [ ("Payroll_Portal_BRD.md",
       {| parts := ["# Payroll Portal"]; blob_type := "text/markdown" |}) ].
Proof.
  assert (Hfresh : Forall (fun c => c < elements_created freshPage)
                          (body_children freshPage))
    by (repeat constructor).
  split; [reflexivity |]. split; [exact Hfresh |].
  exact (proj1 (downloadBRD_saves_markdown generated freshPage sampleResult
                  eq_refl Hfresh)).
Defined.

(** X23. The text export can be repeated: a second export of the same
    result saves a second file with the same name and the same content,
    and the body is again as it was. *)
Theorem downloadBRD_repeatable (snap : Dashboard) (p : DownloadPage)
    (r : GenerationResult) :
  result snap = Some r ->
  Forall (fun c => c < elements_created p) (body_children p) ->
  let saved_file :=
    ((underscoreRuns false (project_name r) ++ "_BRD.md")%string,
     {| parts := [brd_markdown r]; blob_type := "text/markdown" |}) in
  downloads (downloadBRD snap (downloadBRD snap p)) =
    downloads p ++ [saved_file; saved_file] /\
  body_children (downloadBRD snap (downloadBRD snap p)) = body_children p.
Proof.
  intros Hres Hfresh saved_file.
  assert (Hfirst : downloads (downloadBRD snap p) = downloads p ++ [saved_file] /\
                   body_children (downloadBRD snap p) = body_children p /\
                   elements_created (downloadBRD snap p) = S (elements_created p)).
  { unfold downloadBRD, clickAnchor. rewrite Hres.
    cbn [object_urls body_children downloads elements_created].
    rewrite nth_error_app2, Nat.sub_diag by lia.
    cbn [nth_error object_urls body_children downloads elements_created].
    rewrite (fresh_child_filtered _ _ Hfresh). repeat split. }
  destruct Hfirst as [Hd [Hb Hc]].
  assert (Hfresh' : Forall (fun c => c < elements_created (downloadBRD snap p))
                           (body_children (downloadBRD snap p))).
  { rewrite Hb, Hc. eapply Forall_impl; [| exact Hfresh]. cbn. intros; lia. }
  remember (downloadBRD snap p) as p1 eqn:Hp1.
  unfold downloadBRD at 1 2, clickAnchor. rewrite Hres.
  cbn [object_urls body_children downloads elements_created].
  rewrite nth_error_app2, Nat.sub_diag by lia.
  cbn [nth_error object_urls body_children downloads elements_created].
  rewrite (fresh_child_filtered _ _ Hfresh'), Hd, Hb, <- app_assoc.
  split; reflexivity.
Qed.

Lemma downloadBRD_repeatable_witness :
  result generated = Some sampleResult /\
  Forall (fun c => c < elements_created freshPage) (body_children freshPage) /\
  map fst (downloads (downloadBRD generated (downloadBRD generated freshPage))) =
    ["Payroll_Portal_BRD.md"; "Payroll_Portal_BRD.md"].
Proof.
  assert (Hfresh : Forall (fun c => c < elements_created freshPage)
                          (body_children freshPage))
    by (repeat constructor).
  split; [reflexivity |]. split; [exact Hfresh |].
  rewrite (proj1 (downloadBRD_repeatable generated freshPage sampleResult
                    eq_refl Hfresh)).
  reflexivity.
Defined.

(** ** Drag-and-drop highlighting *)

Lemma array_includes_false (l : list string) (t : string) :
  array_includes l t = false <-> ~ In t l.
Proof.
  rewrite <- array_includes_In. destruct (array_includes l t); split; congruence.
Qed.

(** X24. Dragging over the drop zone and leaving it, or dropping on it,
    gives back the class list the zone had, provided the two highlight
    classes were not among its own. *)
Theorem highlight_round_trip (h : IdSource) (classList : list string)
    (uploadedFiles : list FileDescriptor) (files : list File) :
  ~ In "border-blue-400" classList ->
  ~ In "bg-blue-50" classList ->
  handleDragLeave (handleDragOver classList) = classList /\
  fst (handleDrop h (handleDragOver classList) uploadedFiles files) = classList.
Proof.
  intros Hborder Hbg.
  assert (Hleave : handleDragLeave (handleDragOver classList) = classList).
  { unfold handleDragLeave, handleDragOver, classList_add, classList_remove, HIGHLIGHT.
    cbn [fold_left].
    rewrite (proj2 (array_includes_false classList "border-blue-400") Hborder).
    assert (Hbg' : array_includes (classList ++ ["border-blue-400"]) "bg-blue-50" = false).
    { apply array_includes_false. rewrite in_app_iff.
      intros [Hin | [Heq | []]]; [now apply Hbg | discriminate Heq]. }
    rewrite Hbg'. rewrite !filter_app. cbn [filter array_includes existsb String.eqb].
    cbn. rewrite !app_nil_r. apply forallb_filter_id, forallb_forall.
    intros c Hc. apply negb_true_iff.
    change (array_includes ["border-blue-400"; "bg-blue-50"] c = false).
    apply array_includes_false. intros [<- | [<- | []]]; contradiction. }
  split; [exact Hleave |]. unfold handleDrop. cbn [fst]. exact Hleave.
Qed.

Lemma highlight_round_trip_witness :
  ~ In "border-blue-400" dropZoneClasses /\
  ~ In "bg-blue-50" dropZoneClasses /\
  handleDragLeave (handleDragOver dropZoneClasses) = dropZoneClasses.
Proof.
  assert (Hborder : ~ In "border-blue-400" dropZoneClasses).
  { cbn. intros H. repeat (destruct H as [H | H]; [discriminate H |]). exact H. }
  assert (Hbg : ~ In "bg-blue-50" dropZoneClasses).
  { cbn. intros H. repeat (destruct H as [H | H]; [discriminate H |]). exact H. }
  split; [exact Hborder |]. split; [exact Hbg |].
  exact (proj1 (highlight_round_trip steadyIds dropZoneClasses [] [] Hborder Hbg)).
Defined.

(** X25. Whatever the class list, after a drag-over both highlight
    classes are on the zone, a second drag-over adds nothing, and after a
    drag-leave neither class is left. *)
Theorem highlight_on_and_off (classList : list string) (t : string) :
  In t HIGHLIGHT ->
  In t (handleDragOver classList) /\
  ~ In t (handleDragLeave classList) /\
  handleDragOver (handleDragOver classList) = handleDragOver classList.
Proof.
  intros Ht.
  assert (Hover : forall cl,
            In "border-blue-400" (handleDragOver cl) /\
            In "bg-blue-50" (handleDragOver cl)).
  { intros cl. unfold handleDragOver, classList_add, HIGHLIGHT. cbn [fold_left].
    destruct (array_includes cl "border-blue-400") eqn:Hb.
    - apply array_includes_In in Hb.
      destruct (array_includes cl "bg-blue-50") eqn:Hg.
      + apply array_includes_In in Hg. now split.
      + split; rewrite in_app_iff; [now left | right; now left].
    - destruct (array_includes (cl ++ ["border-blue-400"]) "bg-blue-50") eqn:Hg.
      + apply array_includes_In in Hg. split; [| exact Hg].
        rewrite in_app_iff. right. now left.
      + split; rewrite !in_app_iff; [left; right; now left | right; now left]. }
  split; [| split].
  - destruct (Hover classList) as [Hb Hg].
    destruct Ht as [<- | [<- | []]]; assumption.
  - unfold handleDragLeave, classList_remove. rewrite filter_In.
    intros [_ Hkeep]. apply negb_true_iff, array_includes_false in Hkeep.
    now apply Hkeep.
  - destruct (Hover classList) as [Hb Hg].
    unfold handleDragOver at 1. unfold classList_add, HIGHLIGHT. cbn [fold_left].
    rewrite (proj2 (array_includes_In _ _) Hb), (proj2 (array_includes_In _ _) Hg).
    reflexivity.
Qed.

Lemma highlight_on_and_off_witness :
  In "bg-blue-50" HIGHLIGHT /\
  In "bg-blue-50" (handleDragOver dropZoneClasses).
Proof.
  assert (Ht : In "bg-blue-50" HIGHLIGHT) by (right; left; reflexivity).
  split; [exact Ht |].
  exact (proj1 (highlight_on_and_off dropZoneClasses "bg-blue-50" Ht)).
Defined.
